(** * Mathpix PDF conversion front-end: proxy route and client poller

    A shallow embedding of
      - [src/app/api/convert/route.ts]: the [POST] (upload) and [GET]
        (status) handlers of the proxy route, and
      - the page component (the client poller, the progress memo and
        [handleSubmit]),
    followed by the properties of the specification that concern them. *)

From Stdlib Require Import String Ascii List ZArith QArith Qminmax Bool Lia.
From Stdlib Require Import DecimalString.
Import ListNotations.

Local Open Scope string_scope.
Local Open Scope Z_scope.

(** ** JavaScript values that cross the HTTP boundary *)

(** A number as [JSON.parse] can return it: a finite double, given by its
    exact value, negative zero, or an infinity (the value of a literal too
    large for a double, such as [1e400]). *)
Inductive number : Type :=
| Finite (q : Q)
| NegZero
| Infinite (negative : bool).

(** The values [JSON.parse] produces and [NextResponse.json] serialises.
    Objects keep their keys in the order of enumeration. *)
#[warnings="-register-all"]
Inductive json : Type :=
| JNull
| JBool (b : bool)
| JNum (x : number)
| JStr (s : string)
| JArr (items : list json)
| JObj (fields : list (string * json)).

(** [JSON.stringify(v)], kept as the JSON value its text denotes (what the
    receiver of that text parses).  An infinity is written [null] and
    negative zero is written [0], also inside arrays and objects; every
    other value is written as it is. *)
Fixpoint stringified (v : json) : json :=
  match v with
  | JNum (Infinite _) => JNull
  | JNum NegZero => JNum (Finite 0)
  | JArr items => JArr (map stringified items)
  | JObj fields => JObj (map (fun kv => match kv with (k, x) => (k, stringified x) end) fields)
  | _ => v
  end.

(** The values [JSON.stringify] writes as they are: those that hold no
    infinity and no negative zero. *)
Fixpoint written_as_is (v : json) : bool :=
  match v with
  | JNum (Finite _) => true
  | JNum _ => false
  | JArr items => forallb written_as_is items
  | JObj fields => forallb (fun kv => match kv with (_, x) => written_as_is x end) fields
  | _ => true
  end.

(** What a [catch] clause can receive: an [Error] instance with its
    [message], or any other thrown value. *)
Inductive thrown : Type :=
| ErrorObj (message : string)
| NonError.

(** [`${n}`] for an integer-valued number. *)
Definition string_of_Z (n : Z) : string := NilZero.string_of_int (Z.to_int n).

(** JavaScript truthiness of a string, and of a possibly absent one
    ([None] stands for [null] and [undefined]). *)
Definition truthy_string (s : string) : bool :=
  match s with EmptyString => false | String _ _ => true end.

Definition truthy (v : option string) : bool :=
  match v with None => false | Some s => truthy_string s end.

(** [a ?? b]: [b] is taken only when [a] is [null] or [undefined]. *)
Definition nullish {A : Type} (a : option A) (b : A) : A :=
  match a with Some x => x | None => b end.

(** [a ?? b] between two values that may both be missing. *)
Definition coalesce {A : Type} (a b : option A) : option A :=
  match a with Some _ => a | None => b end.

(** [a ?? b] on a parsed JSON value, where [null] is the only nullish one. *)
Definition json_nullish (a b : json) : json :=
  match a with JNull => b | _ => a end.

(** ** The proxy route, [src/app/api/convert/route.ts] *)
Module Route.

(** An outbound [fetch] call as the handlers issue it. *)
Record Outbound : Type := {
  url : string;
  method : string;
  headers : list (string * string);
  body : option (list Byte.byte)
}.

(** The upstream response: its status line and what [response.text()]
    resolves to (or rejects with). *)
Record Upstream : Type := {
  up_status : Z;
  up_text : thrown + string
}.

(** [response.ok] *)
Definition ok (r : Upstream) : bool := (200 <=? up_status r) && (up_status r <=? 299).

(** Everything the handlers take from their host: the JavaScript built-ins
    they call, the process environment read at module load, and the network
    that answers [fetch]. *)
Record Host : Type := {
  (** [JSON.parse]; [None] when it throws. *)
  JSON_parse : string -> option json;
  encodeURIComponent : string -> string;
  (** Message of the [RangeError] the [Response] constructor throws for a
      status outside 200..599. *)
  status_range_message : Z -> string;
  (** Message of the [TypeError] it throws when a body is given together
      with a null-body status. *)
  null_body_message : Z -> string;
  (** [process.env.MATHPIX_APP_ID] and [process.env.MATHPIX_APP_KEY]. *)
  APP_ID : option string;
  APP_KEY : option string;
  (** Outcome of a [fetch]: rejection, or the upstream response. *)
  network : Outbound -> thrown + Upstream
}.

(** The response a handler hands back to Next.js: its status and its body,
    the body as the JSON value the client reads from it. *)
Record NextResponse : Type := {
  status : Z;
  payload : json
}.

(** *** Handler monad: exceptions over a log of outbound calls *)

Definition M (A : Type) : Type := list Outbound -> (thrown + A) * list Outbound.

Definition ret {A : Type} (a : A) : M A := fun log => (inr a, log).

Definition bind {A B : Type} (m : M A) (k : A -> M B) : M B :=
  fun log =>
    match m log with
    | (inl e, log') => (inl e, log')
    | (inr a, log') => k a log'
    end.

Definition throw {A : Type} (e : thrown) : M A := fun log => (inl e, log).

(** [try { body } catch (error) { handler }] *)
Definition try_catch {A : Type} (body : M A) (handler : thrown -> M A) : M A :=
  fun log =>
    match body log with
    | (inl e, log') => handler e log'
    | (inr a, log') => (inr a, log')
    end.

(** Lifting of a promise that is already settled. *)
Definition await {A : Type} (r : thrown + A) : M A := fun log => (r, log).

Declare Scope route_scope.
Delimit Scope route_scope with route.
Notation "x <- m ;; k" := (bind m (fun x => k))
  (at level 61, m at next level, right associativity) : route_scope.
Notation "' pat <- m ;; k" := (bind m (fun x => match x with pat => k end))
  (at level 61, pat pattern, m at next level, right associativity) : route_scope.
Local Open Scope route_scope.

Section Handlers.

Variable host : Host.

(** [fetch(url, init)]: the call is recorded, then the network answers. *)
Definition fetch (req : Outbound) : M Upstream :=
  fun log => (network host req, (log ++ [req])%list).

(** *** [NextResponse.json(body, { status })]

    The body of the response is [JSON.stringify(body)].  The response goes
    through the [Response] constructor of the Fetch standard, which refuses
    a status outside 200..599 and refuses a body on a null-body status
    (101, 103, 204, 205, 304). *)
Definition null_body_status (s : Z) : bool :=
  (s =? 101) || (s =? 103) || (s =? 204) || (s =? 205) || (s =? 304).

Definition NextResponse_json (body : json) (init_status : option Z) : M NextResponse :=
  let s := nullish init_status 200 in
  if (s <? 200) || (599 <? s) then throw (ErrorObj (status_range_message host s))
  else if null_body_status s then throw (ErrorObj (null_body_message host s))
  else ret {| status := s; payload := stringified body |}.

Definition MATHPIX_ENDPOINT : string := "https://api.mathpix.com/v3/pdf".

Definition getCredentialHeader : M (string * string) :=
  let appId := APP_ID host in
  let appKey := APP_KEY host in
  if negb (truthy appId) || negb (truthy appKey) then
    throw (ErrorObj
      "Mathpix credentials are missing. Set MATHPIX_APP_ID and MATHPIX_APP_KEY env vars.")
  else ret (nullish appId "", nullish appKey "").

(** [try { parsed = JSON.parse(text) } catch { parsed = text }] *)
Definition parse_or_text (text : string) : json :=
  match JSON_parse host text with
  | Some v => v
  | None => JStr text
  end.

Definition forwardToMathpix (arrayBuffer : list Byte.byte) : M (Upstream * json) :=
  '(appId, appKey) <- getCredentialHeader ;;
  let headers :=
    [("Content-Type", "application/pdf"); ("Accept", "application/json");
     ("app_id", appId); ("app_key", appKey)] in
  response <- fetch {| url := MATHPIX_ENDPOINT; method := "POST";
                       headers := headers; body := Some arrayBuffer |} ;;
  text <- await (up_text response) ;;
  let parsed := parse_or_text text in
  ret (response, parsed).

(** A [FormData] entry value: a string, or a [File] (a [Blob]) with its
    declared media type and bytes. *)
Inductive FormDataEntryValue : Type :=
| EntryString (s : string)
| EntryFile (type : string) (bytes : list Byte.byte).

(** The upload request: what [request.formData()] settles to. *)
Record PostRequest : Type := {
  formData : thrown + list (string * FormDataEntryValue)
}.

(** [formData.get(name)]: the first entry of that name, or [null]. *)
Fixpoint FormData_get (name : string) (fd : list (string * FormDataEntryValue))
  : option FormDataEntryValue :=
  match fd with
  | [] => None
  | (k, v) :: rest => if String.eqb k name then Some v else FormData_get name rest
  end.

Definition error_body (message : string) : json := JObj [("error", JStr message)].

(** The body of the [try] block of [POST]. *)
Definition POST_try (request : PostRequest) : M NextResponse :=
  fd <- await (formData request) ;;
  let file := FormData_get "file" fd in
  match file with
  | Some (EntryFile type bytes) =>
      if truthy_string type && negb (String.eqb type "application/pdf") then
        NextResponse_json (error_body "Only application/pdf uploads are supported.") (Some 400)
      else
        let arrayBuffer := bytes in
        '(response, parsed) <- forwardToMathpix arrayBuffer ;;
        if negb (ok response) then
          NextResponse_json (json_nullish parsed (error_body "Mathpix rejected the request."))
                            (Some (up_status response))
        else
          NextResponse_json (json_nullish parsed (JObj [("success", JBool true)])) None
  | _ =>
      NextResponse_json (error_body "Missing PDF file payload.") (Some 400)
  end.

(** The [catch (error)] clause shared by both handlers. *)
Definition on_error (error : thrown) : M NextResponse :=
  let message :=
    match error with
    | ErrorObj m => m
    | NonError => "Unexpected error"
    end in
  NextResponse_json (error_body message) (Some 500).

Definition POST (request : PostRequest) : M NextResponse :=
  try_catch (POST_try request) on_error.

(** The status request: the query string as [searchParams] sees it. *)
Record GetRequest : Type := {
  searchParams : list (string * string)
}.

(** [searchParams.get(name)]: the first value of that name, or [null]. *)
Fixpoint searchParams_get (name : string) (ps : list (string * string)) : option string :=
  match ps with
  | [] => None
  | (k, v) :: rest => if String.eqb k name then Some v else searchParams_get name rest
  end.

(** The body of the [try] block of [GET]. *)
Definition GET_try (request : GetRequest) : M NextResponse :=
  '(appId, appKey) <- getCredentialHeader ;;
  let jobId := searchParams_get "jobId" (searchParams request) in
  if negb (truthy jobId) then
    NextResponse_json (error_body "jobId query parameter is required.") (Some 400)
  else
    let headers :=
      [("Accept", "application/json"); ("app_id", appId); ("app_key", appKey)] in
    response <- fetch {| url := MATHPIX_ENDPOINT ++ "/"
                                  ++ encodeURIComponent host (nullish jobId "");
                         method := "GET"; headers := headers; body := None |} ;;
    text <- await (up_text response) ;;
    let parsed := parse_or_text text in
    if negb (ok response) then
      NextResponse_json
        (json_nullish parsed
           (error_body ("Mathpix status lookup failed with "
                          ++ string_of_Z (up_status response) ++ ".")))
        (Some (up_status response))
    else
      NextResponse_json (json_nullish parsed (JObj [])) None.

Definition GET (request : GetRequest) : M NextResponse :=
  try_catch (GET_try request) on_error.

End Handlers.

End Route.

(** ** The page component: client poller, progress and upload *)
Module Page.

(** [String.prototype.toLowerCase] on the ASCII letters.  The statuses the
    poller compares against are ASCII and contain no letter that is the
    lower case of a character outside ASCII, so the comparisons are decided
    by this part of the function. *)
Definition lower_ascii (c : ascii) : ascii :=
  let n := nat_of_ascii c in
  if ((65 <=? n) && (n <=? 90))%nat then ascii_of_nat (n + 32) else c.

Fixpoint toLowerCase (s : string) : string :=
  match s with
  | EmptyString => EmptyString
  | String c rest => String (lower_ascii c) (toLowerCase rest)
  end.

(** The [PdfJobStatus] interface.  An optional field that is missing (or
    [null]) is [None]. *)
Module Payload.

Record Data : Type := {
  type : option string;
  value : option string
}.

Record PdfJobStatus : Type := {
  job_id : option string;
  status : option string;
  num_pages : option Z;
  pages_processed : option Z;
  error : option string;
  data : option Data;
  markdown : option string;
  html : option string;
  text : option string;
  pdf_url : option string;
  conversion_status : option string
}.

(** The upload response: [PdfJobStatus & { success?, id?, pdf_id? }]. *)
Record Upload : Type := {
  base :> PdfJobStatus;
  success : option bool;
  id : option string;
  pdf_id : option string
}.

End Payload.

Import Payload.

(** What [setRawResponse] stores. *)
Inductive Raw : Type :=
| RawUpload (p : Payload.Upload)
| RawStatus (p : PdfJobStatus).

(** The React state of [HomePage] that the poller and the form write. *)
Record State : Type := {
  isSubmitting : bool;
  status : option PdfJobStatus;
  jobId : option string;
  error : option string;
  markdown : string;
  rawResponse : option Raw
}.

Definition setIsSubmitting (v : bool) (st : State) : State :=
  {| isSubmitting := v; status := status st; jobId := jobId st;
     error := error st; markdown := markdown st; rawResponse := rawResponse st |}.

Definition setStatus (v : option PdfJobStatus) (st : State) : State :=
  {| isSubmitting := isSubmitting st; status := v; jobId := jobId st;
     error := error st; markdown := markdown st; rawResponse := rawResponse st |}.

Definition setJobId (v : option string) (st : State) : State :=
  {| isSubmitting := isSubmitting st; status := status st; jobId := v;
     error := error st; markdown := markdown st; rawResponse := rawResponse st |}.

Definition setError (v : option string) (st : State) : State :=
  {| isSubmitting := isSubmitting st; status := status st; jobId := jobId st;
     error := v; markdown := markdown st; rawResponse := rawResponse st |}.

Definition setMarkdown (v : string) (st : State) : State :=
  {| isSubmitting := isSubmitting st; status := status st; jobId := jobId st;
     error := error st; markdown := v; rawResponse := rawResponse st |}.

Definition setRawResponse (v : option Raw) (st : State) : State :=
  {| isSubmitting := isSubmitting st; status := status st; jobId := jobId st;
     error := error st; markdown := markdown st; rawResponse := v |}.

(** [(err as Error).message]: [undefined] when the thrown value is not an
    [Error]. *)
Definition message_of (e : thrown) : option string :=
  match e with
  | ErrorObj m => Some m
  | NonError => None
  end.

Definition POLL_INTERVAL_MS : Z := 5000.

(** *** The polling effect, [useEffect(..., [jobId])] *)

(** What [fetch(`/api/convert?jobId=...`)] resolves to, as far as [poll]
    looks at it. *)
Record PollResponse : Type := {
  ok : bool;
  http_status : Z
}.

(** Where a suspended call of [poll] is waiting. *)
Inductive Awaiting : Type :=
| AwaitFetch                      (* at [await fetch(...)] *)
| AwaitJson.                      (* at [await response.json()] *)

(** One run of the effect: the React state it writes, the [jobId] it was
    started for, its two closure variables [ignore] and [timer], the
    timeouts it has scheduled that have neither fired nor been cleared
    (handle and delay), the next handle [setTimeout] will return, the calls
    of [poll] that are suspended (keyed by the handle of the timeout that
    started them), and the job ids it has sent status requests for.
    [setTimeout] returns an integer greater than zero, so [if (timer)] in
    the cleanup tests whether a timeout was scheduled. *)
Record Session : Type := {
  ui : State;
  tracked : string;
  ignore : bool;
  timer : option positive;
  pending : list (positive * Z);
  fresh : positive;
  running : list (positive * Awaiting);
  requests : list string
}.

Definition with_ui (f : State -> State) (s : Session) : Session :=
  {| ui := f (ui s); tracked := tracked s; ignore := ignore s; timer := timer s;
     pending := pending s; fresh := fresh s; running := running s;
     requests := requests s |}.

(** [timer = setTimeout(poll, POLL_INTERVAL_MS)] *)
Definition schedule_poll (s : Session) : Session :=
  {| ui := ui s; tracked := tracked s; ignore := ignore s;
     timer := Some (fresh s);
     pending := (pending s ++ [(fresh s, POLL_INTERVAL_MS)])%list;
     fresh := Pos.succ (fresh s); running := running s; requests := requests s |}.

(** [clearTimeout(h)] *)
Definition clearTimeout (h : positive) (s : Session) : Session :=
  {| ui := ui s; tracked := tracked s; ignore := ignore s; timer := timer s;
     pending := filter (fun p => negb (Pos.eqb (fst p) h)) (pending s);
     fresh := fresh s; running := running s; requests := requests s |}.

Definition is_pending (h : positive) (s : Session) : bool :=
  existsb (fun p => Pos.eqb (fst p) h) (pending s).

Fixpoint stage_of (h : positive) (rs : list (positive * Awaiting)) : option Awaiting :=
  match rs with
  | [] => None
  | (k, a) :: rest => if Pos.eqb k h then Some a else stage_of h rest
  end.

Definition drop_call (h : positive) (rs : list (positive * Awaiting))
  : list (positive * Awaiting) :=
  filter (fun p => negb (Pos.eqb (fst p) h)) rs.

Definition set_running (rs : list (positive * Awaiting)) (s : Session) : Session :=
  {| ui := ui s; tracked := tracked s; ignore := ignore s; timer := timer s;
     pending := pending s; fresh := fresh s; running := rs;
     requests := requests s |}.

(** The [catch (err)] clause of [poll]. *)
Definition poll_catch (err : thrown) (s : Session) : Session :=
  if negb (ignore s) then with_ui (setError (message_of err)) s else s.

(** [payload.data?.value ?? payload.markdown ?? payload.html ?? payload.text ?? ""] *)
Definition derivedMarkdown (payload : PdfJobStatus) : string :=
  let data_value :=                       (* [payload.data?.value] *)
    match Payload.data payload with
    | Some d => Payload.value d
    | None => None
    end in
  nullish
    (coalesce (coalesce (coalesce data_value (Payload.markdown payload))
                        (Payload.html payload))
              (Payload.text payload))
    "".

Definition opt_string_eqb (a : option string) (b : string) : bool :=
  match a with
  | Some x => String.eqb x b
  | None => false
  end.

(** [poll] from the point where [response.json()] has resolved to
    [payload]. *)
Definition poll_payload (payload : PdfJobStatus) (s : Session) : Session :=
  if ignore s then s
  else
    let s := with_ui (setStatus (Some payload)) s in
    let s := with_ui (setRawResponse (Some (RawStatus payload))) s in
    let completionState := option_map toLowerCase (Payload.status payload) in
    if opt_string_eqb completionState "completed" then
      with_ui (setMarkdown (derivedMarkdown payload)) s
    else if opt_string_eqb completionState "error"
            || opt_string_eqb completionState "failed" then
      with_ui (setError (Some (if truthy (Payload.error payload)
                               then nullish (Payload.error payload) ""
                               else "Conversion failed. Check Mathpix dashboard for details."))) s
    else schedule_poll s.

(** The events that drive a session. *)
Inductive Event : Type :=
| TimerFires (h : positive)
| FetchSettles (h : positive) (r : thrown + PollResponse)
| JsonSettles (h : positive) (r : thrown + PdfJobStatus)
| Cleanup.

Definition step (ev : Event) (s : Session) : Session :=
  match ev with
  | TimerFires h =>
      (* the timeout runs [poll], which issues the request and suspends *)
      if is_pending h s then
        let s := clearTimeout h s in
        {| ui := ui s; tracked := tracked s; ignore := ignore s; timer := timer s;
           pending := pending s; fresh := fresh s;
           running := (running s ++ [(h, AwaitFetch)])%list;
           requests := (requests s ++ [tracked s])%list |}
      else s
  | FetchSettles h r =>
      match stage_of h (running s) with
      | Some AwaitFetch =>
          match r with
          | inl err => poll_catch err (set_running (drop_call h (running s)) s)
          | inr response =>
              if negb (ok response) then
                poll_catch
                  (ErrorObj ("Polling failed: " ++ string_of_Z (http_status response)))
                  (set_running (drop_call h (running s)) s)
              else
                set_running
                  (map (fun p => if Pos.eqb (fst p) h then (h, AwaitJson) else p)
                       (running s)) s
          end
      | _ => s
      end
  | JsonSettles h r =>
      match stage_of h (running s) with
      | Some AwaitJson =>
          let s := set_running (drop_call h (running s)) s in
          match r with
          | inl err => poll_catch err s
          | inr payload => poll_payload payload s
          end
      | _ => s
      end
  | Cleanup =>
      (* the function the effect returns *)
      let s := {| ui := ui s; tracked := tracked s; ignore := true; timer := timer s;
                  pending := pending s; fresh := fresh s; running := running s;
                  requests := requests s |} in
      match timer s with
      | Some h => clearTimeout h s
      | None => s
      end
  end.

Fixpoint run (evs : list Event) (s : Session) : Session :=
  match evs with
  | [] => s
  | ev :: rest => run rest (step ev s)
  end.

(** The effect body for the current [jobId]: nothing when it is falsy,
    otherwise a session whose first poll is scheduled.  [handle] is the
    next timeout handle of the browser. *)
Definition useEffect_poll (st : State) (handle : positive) : option Session :=
  if negb (truthy (jobId st)) then None
  else
    Some (schedule_poll
            {| ui := st; tracked := nullish (jobId st) ""; ignore := false;
               timer := None; pending := []; fresh := handle; running := [];
               requests := [] |}).

(** *** [progress] *)

(** [!n] for an optional number. *)
Definition falsy_number (n : option Z) : bool :=
  match n with
  | None => true
  | Some z => z =? 0
  end.

Definition status_num_pages (st : option PdfJobStatus) : option Z :=
  match st with Some p => Payload.num_pages p | None => None end.

Definition status_pages_processed (st : option PdfJobStatus) : option Z :=
  match st with Some p => Payload.pages_processed p | None => None end.

Definition progress (st : option PdfJobStatus) : Q :=
  if falsy_number (status_num_pages st) || falsy_number (status_pages_processed st) then 0%Q
  else
    match status_num_pages st, status_pages_processed st with
    | Some n, Some p =>
        if n =? 0 then 0%Q
        else Qmin (inject_Z p / inject_Z n) 1
    | _, _ => 0%Q
    end.

(** *** [handleSubmit] *)

(** A file chosen in the form's input. *)
Record File : Type := {
  file_type : string;
  file_bytes : list Byte.byte
}.

(** What [fetch("/api/convert", { method: "POST", ... })] resolves to, as
    far as [handleSubmit] looks at it. *)
Record UploadResponse : Type := {
  upload_ok : bool;
  upload_text : thrown + string;          (* [response.text()] *)
  upload_json : thrown + Payload.Upload   (* [response.json()] *)
}.

(** [a || b] on optional strings. *)
Definition or_else (a b : option string) : option string :=
  if truthy a then a else b.

(** Up to the request: validation of the chosen file and the resets.
    The file to send is returned when the request is issued. *)
Definition handleSubmit_begin (files : list File) (st : State) : State * option File :=
  match files with
  | [] => (setError (Some "Attach a PDF to convert.") st, None)
  | file :: _ =>
      if negb (String.eqb (file_type file) "application/pdf") then
        (setError (Some "Only PDF files are supported.") st, None)
      else
        let st := setIsSubmitting true st in
        let st := setError None st in
        let st := setStatus None st in
        let st := setJobId None st in
        let st := setMarkdown "" st in
        let st := setRawResponse None st in
        (st, Some file)
  end.

Definition newJobId (payload : Payload.Upload) : option string :=
  or_else (Payload.job_id payload) (or_else (Payload.id payload) (Payload.pdf_id payload)).

(** The [try] block, from the point where [fetch] has settled. *)
Definition handleSubmit_try (r : thrown + UploadResponse) (st : State) : thrown + State :=
  match r with
  | inl err => inl err
  | inr response =>
      if negb (upload_ok response) then
        match upload_text response with
        | inl err => inl err
        | inr text => inl (ErrorObj (if truthy_string text then text else "Upload failed"))
        end
      else
        match upload_json response with
        | inl err => inl err
        | inr payload =>
            if negb (truthy (newJobId payload)) then
              inl (ErrorObj "Upload succeeded but no job id returned by Mathpix.")
            else
              let st := setJobId (newJobId payload) st in
              let st := setStatus (Some (Payload.base payload)) st in
              let st := setRawResponse (Some (RawUpload payload)) st in
              inr st
        end
  end.

(** [try { ... } catch (err) { setError(err.message) } finally { setIsSubmitting(false) }] *)
Definition handleSubmit_settle (r : thrown + UploadResponse) (st : State) : State :=
  let st :=
    match handleSubmit_try r st with
    | inr st' => st'
    | inl err => setError (message_of err) st
    end in
  setIsSubmitting false st.

(** *** What the status card shows *)

(** [s.replace(/_/g, " ")]: every underscore becomes a space. *)
Fixpoint replace_underscores (s : string) : string :=
  match s with
  | EmptyString => EmptyString
  | String c rest =>
      String (if Ascii.eqb c "_" then " "%char else c) (replace_underscores rest)
  end.

(** [status?.status?.replace(/_/g, " ") ?? "idle"] *)
Definition conversionState (st : option PdfJobStatus) : string :=
  let st_status :=                        (* [status?.status] *)
    match st with
    | Some p => Payload.status p
    | None => None
    end in
  nullish (option_map replace_underscores st_status) "idle".

End Page.

(** ** A reference host

    An executable [JSON.parse] and a host built on it, for running the
    handlers on concrete requests.  Texts and strings are the UTF-8 bytes
    of the JavaScript strings (a lone surrogate, which only a [\u] escape
    can produce, is written in the same three-byte form).  A number is
    rounded to the nearest double, ties to even; a repeated key keeps its
    first place and its last value; keys that are array indices come first,
    in ascending order. *)
Module Reference.

Definition dquote : ascii := ascii_of_nat 34.
Definition backslash : ascii := ascii_of_nat 92.

Definition is_ws (c : ascii) : bool :=
  let n := nat_of_ascii c in
  ((n =? 32) || (n =? 9) || (n =? 10) || (n =? 13))%nat.

Fixpoint skip_ws (s : string) : string :=
  match s with
  | String c rest => if is_ws c then skip_ws rest else s
  | EmptyString => s
  end.

(** [strip lit s]: the rest of [s] after the prefix [lit]. *)
Fixpoint strip (lit s : string) : option string :=
  match lit, s with
  | EmptyString, _ => Some s
  | String a lit', String b s' => if Ascii.eqb a b then strip lit' s' else None
  | String _ _, EmptyString => None
  end.

Definition digit_of (c : ascii) : option Z :=
  let n := nat_of_ascii c in
  if ((48 <=? n) && (n <=? 57))%nat then Some (Z.of_nat (n - 48)) else None.

Definition hex_of (c : ascii) : option N :=
  let n := N_of_ascii c in
  if ((48 <=? n) && (n <=? 57))%N then Some (n - 48)%N
  else if ((65 <=? n) && (n <=? 70))%N then Some (n - 55)%N
  else if ((97 <=? n) && (n <=? 102))%N then Some (n - 87)%N
  else None.

Definition hex4 (a b c d : ascii) : option N :=
  match hex_of a, hex_of b, hex_of c, hex_of d with
  | Some x, Some y, Some z, Some w => Some (4096 * x + 256 * y + 16 * z + w)%N
  | _, _, _, _ => None
  end.

(** The UTF-8 bytes of a code point (of a code unit, for a lone
    surrogate). *)
Definition utf8 (cp : N) : string :=
  let byte (n : N) := ascii_of_N n in
  (if cp <? 128 then String (byte cp) EmptyString
   else if cp <? 2048 then
     String (byte (192 + cp / 64)) (String (byte (128 + cp mod 64)) EmptyString)
   else if cp <? 65536 then
     String (byte (224 + cp / 4096))
       (String (byte (128 + (cp / 64) mod 64)) (String (byte (128 + cp mod 64)) EmptyString))
   else
     String (byte (240 + cp / 262144))
       (String (byte (128 + (cp / 4096) mod 64))
          (String (byte (128 + (cp / 64) mod 64))
             (String (byte (128 + cp mod 64)) EmptyString))))%N.

(** Reads digits: the value read after [acc], how many, and the rest. *)
Fixpoint digits (s : string) (acc : Z) (count : nat) : Z * nat * string :=
  match s with
  | String c rest =>
      match digit_of c with
      | Some d => digits rest (10 * acc + d) (S count)
      | None => (acc, count, s)
      end
  | EmptyString => (acc, count, s)
  end.

(** [num / den] rounded to the nearest integer, a tie to the even one. *)
Definition round_half_even (num den : Z) : Z :=
  let m := num / den in
  let r := num mod den in
  if (den <? 2 * r) || ((den =? 2 * r) && Z.odd m) then m + 1 else m.

(** The double nearest to [a / b] (with [0 <= a], [0 < b]), negated when
    [neg]: a mantissa below [2^53] times a power of two no smaller than
    [2^-1074]; an infinity from [2^1024] on. *)
Definition nearest_double (neg : bool) (a b : Z) : number :=
  if a =? 0 then (if neg then NegZero else Finite 0)
  else
    let e1 := Z.log2 a - Z.log2 b - 53 in
    let reaches (k : Z) :=                    (* [2^k <= a / b] *)
      if 0 <=? k then b * 2 ^ k <=? a else b <=? a * 2 ^ (- k) in
    let e := Z.max (if reaches (e1 + 53) then e1 + 1 else e1) (-1074) in
    let m := if 0 <=? e then round_half_even a (b * 2 ^ e)
             else round_half_even (a * 2 ^ (- e)) b in
    if m =? 0 then (if neg then NegZero else Finite 0)
    else if (0 <=? e) && (2 ^ 1024 <=? m * 2 ^ e) then Infinite neg
    else
      let magnitude := if 0 <=? e then inject_Z (m * 2 ^ e)
                       else Qred (m # Z.to_pos (2 ^ (- e))) in
      Finite (if neg then Qred (- magnitude) else magnitude).

(** [-? int frac? exp?] *)
Definition number_literal (s : string) : option (number * string) :=
  let (neg, s1) := match s with
                   | String "-" rest => (true, rest)
                   | _ => (false, s)
                   end in
  let '(int, n_int, s2) := digits s1 0 0 in
  let leading_zero := match s1 with
                      | String "0" _ => (1 <? n_int)%nat
                      | _ => false
                      end in
  if (n_int =? 0)%nat || leading_zero then None
  else
    let frac_part :=
      match s2 with
      | String "." rest =>
          let '(f, n_f, s3) := digits rest 0 0 in
          if (n_f =? 0)%nat then None else Some (f, Z.of_nat n_f, s3)
      | _ => Some (0, 0, s2)
      end in
    match frac_part with
    | None => None
    | Some (f, n_f, s3) =>
        let exp_part :=
          match s3 with
          | String c rest =>
              if Ascii.eqb c "e" || Ascii.eqb c "E" then
                let (eneg, s4) := match rest with
                                  | String "-" r => (true, r)
                                  | String "+" r => (false, r)
                                  | _ => (false, rest)
                                  end in
                let '(e, n_e, s5) := digits s4 0 0 in
                if (n_e =? 0)%nat then None
                else Some (if eneg then - e else e, s5)
              else Some (0, s3)
          | EmptyString => Some (0, s3)
          end in
        match exp_part with
        | None => None
        | Some (e, s5) =>
            let mantissa := int * 10 ^ n_f + f in
            let k := e - n_f in
            Some (if 0 <=? k then nearest_double neg (mantissa * 10 ^ k) 1
                  else nearest_double neg mantissa (10 ^ (- k)),
                  s5)
        end
    end.

(** A string after its opening quote: its characters and the rest after
    the closing quote.  Two [\u] escapes that form a surrogate pair give
    one code point. *)
Fixpoint string_body (s : string) : option (string * string) :=
  match s with
  | EmptyString => None
  | String c rest =>
      if Ascii.eqb c dquote then Some (EmptyString, rest)
      else if Ascii.eqb c backslash then
        match rest with
        | String e rest' =>
            let simple (d : ascii) :=
              match string_body rest' with
              | Some (body, after) => Some (String d body, after)
              | None => None
              end in
            if Ascii.eqb e dquote then simple dquote
            else if Ascii.eqb e backslash then simple backslash
            else if Ascii.eqb e "/" then simple "/"%char
            else if Ascii.eqb e "b" then simple (ascii_of_nat 8)
            else if Ascii.eqb e "f" then simple (ascii_of_nat 12)
            else if Ascii.eqb e "n" then simple (ascii_of_nat 10)
            else if Ascii.eqb e "r" then simple (ascii_of_nat 13)
            else if Ascii.eqb e "t" then simple (ascii_of_nat 9)
            else if Ascii.eqb e "u" then
              match rest' with
              | String h1 (String h2 (String h3 (String h4 rest''))) =>
                  match hex4 h1 h2 h3 h4 with
                  | Some unit =>
                      let alone :=
                        match string_body rest'' with
                        | Some (body, after) => Some (utf8 unit ++ body, after)
                        | None => None
                        end in
                      if ((55296 <=? unit) && (unit <=? 56319))%N then
                        match rest'' with
                        | String b1 (String b2 (String l1 (String l2 (String l3
                            (String l4 rest3))))) =>
                            match hex4 l1 l2 l3 l4 with
                            | Some low =>
                                if Ascii.eqb b1 backslash && Ascii.eqb b2 "u"
                                   && ((56320 <=? low) && (low <=? 57343))%N then
                                  match string_body rest3 with
                                  | Some (body, after) =>
                                      Some (utf8 (65536 + (unit - 55296) * 1024
                                                  + (low - 56320))%N ++ body,
                                            after)
                                  | None => None
                                  end
                                else alone
                            | None => alone
                            end
                        | _ => alone
                        end
                      else alone
                  | None => None
                  end
              | _ => None
              end
            else None
        | EmptyString => None
        end
      else if (nat_of_ascii c <? 32)%nat then None
      else
        match string_body rest with
        | Some (body, after) => Some (String c body, after)
        | None => None
        end
  end.

(** [k] as an array index: a canonical decimal below [2^32 - 1]. *)
Definition array_index (k : string) : option Z :=
  match k with
  | EmptyString => None
  | String c rest =>
      let '(n, count, after) := digits k 0 0 in
      match after, (Ascii.eqb c "0" && negb (String.eqb rest "")) with
      | EmptyString, false => if n <? 2 ^ 32 - 1 then Some n else None
      | _, _ => None
      end
  end.

(** Defining the property [k] of an object: a key already there keeps its
    place and takes the new value. *)
Fixpoint put (k : string) (v : json) (fields : list (string * json))
  : list (string * json) :=
  match fields with
  | [] => [(k, v)]
  | (k', v') :: rest =>
      if String.eqb k' k then (k', v) :: rest else (k', v') :: put k v rest
  end.

Fixpoint insert_index (n : Z) (kv : string * json) (l : list (Z * (string * json)))
  : list (Z * (string * json)) :=
  match l with
  | [] => [(n, kv)]
  | (m, kv') :: rest =>
      if n <? m then (n, kv) :: l else (m, kv') :: insert_index n kv rest
  end.

(** The fields in the order of enumeration: array indices ascending, then
    the other keys as they were defined. *)
Definition enumerate (fields : list (string * json)) : list (string * json) :=
  let indexed :=
    fold_left (fun acc kv => match array_index (fst kv) with
                             | Some n => insert_index n kv acc
                             | None => acc
                             end) fields [] in
  let named :=
    filter (fun kv => match array_index (fst kv) with
                      | Some _ => false
                      | None => true
                      end) fields in
  (map snd indexed ++ named)%list.

(** The object of the members of a literal, read left to right. *)
Definition object_of (members : list (string * json)) : json :=
  JObj (enumerate (fold_left (fun acc kv => put (fst kv) (snd kv) acc) members [])).

(** A value at the head of [s], and what follows it.  [elements] and
    [members] read the rest of an array and of an object after the first
    item. *)
Fixpoint value (fuel : nat) (s : string) : option (json * string) :=
  match fuel with
  | O => None
  | S fuel' =>
      let elements :=
        fix elements (n : nat) (acc : list json) (s : string) : option (json * string) :=
          match n with
          | O => None
          | S n' =>
              match skip_ws s with
              | String "]" rest => Some (JArr (rev acc), rest)
              | String "," rest =>
                  match value fuel' (skip_ws rest) with
                  | Some (v, after) => elements n' (v :: acc) after
                  | None => None
                  end
              | _ => None
              end
          end in
      let member (s : string) : option (string * json * string) :=
        match s with
        | String c rest =>
            if Ascii.eqb c dquote then
              match string_body rest with
              | Some (key, after) =>
                  match skip_ws after with
                  | String ":" after' =>
                      match value fuel' (skip_ws after') with
                      | Some (v, after'') => Some (key, v, after'')
                      | None => None
                      end
                  | _ => None
                  end
              | None => None
              end
            else None
        | EmptyString => None
        end in
      let members :=
        fix members (n : nat) (acc : list (string * json)) (s : string)
          : option (json * string) :=
          match n with
          | O => None
          | S n' =>
              match skip_ws s with
              | String "}" rest => Some (object_of (rev acc), rest)
              | String "," rest =>
                  match member (skip_ws rest) with
                  | Some (k, v, after) => members n' ((k, v) :: acc) after
                  | None => None
                  end
              | _ => None
              end
          end in
      match s with
      | EmptyString => None
      | String c rest =>
          if Ascii.eqb c "n" then option_map (pair JNull) (strip "ull" rest)
          else if Ascii.eqb c "t" then option_map (pair (JBool true)) (strip "rue" rest)
          else if Ascii.eqb c "f" then option_map (pair (JBool false)) (strip "alse" rest)
          else if Ascii.eqb c dquote then
            match string_body rest with
            | Some (str, after) => Some (JStr str, after)
            | None => None
            end
          else if Ascii.eqb c "[" then
            match skip_ws rest with
            | String "]" after => Some (JArr [], after)
            | first =>
                match value fuel' first with
                | Some (v, after) => elements fuel' [v] after
                | None => None
                end
            end
          else if Ascii.eqb c "{" then
            match skip_ws rest with
            | String "}" after => Some (JObj [], after)
            | first =>
                match member first with
                | Some (k, v, after) => members fuel' [(k, v)] after
                | None => None
                end
            end
          else
            match number_literal s with
            | Some (x, after) => Some (JNum x, after)
            | None => None
            end
      end
  end.

(** [JSON.parse(text)]: one value between optional white space. *)
Definition JSON_parse (text : string) : option json :=
  match value (S (String.length text)) (skip_ws text) with
  | Some (v, rest) =>
      match skip_ws rest with
      | EmptyString => Some v
      | String _ _ => None
      end
  | None => None
  end.

(** [encodeURIComponent] on the UTF-8 bytes of a string: letters, digits
    and [- _ . ! ~ * ' ( )] stay, every other byte becomes [%XX]. *)
Definition unreserved (c : ascii) : bool :=
  let n := nat_of_ascii c in
  (((65 <=? n) && (n <=? 90)) || ((97 <=? n) && (n <=? 122)) || ((48 <=? n) && (n <=? 57))
   || (n =? 45) || (n =? 95) || (n =? 46) || (n =? 33) || (n =? 126) || (n =? 42)
   || (n =? 39) || (n =? 40) || (n =? 41))%nat.

Definition hex_digit (n : nat) : ascii :=
  if (n <? 10)%nat then ascii_of_nat (48 + n) else ascii_of_nat (55 + n).

Fixpoint encodeURIComponent (s : string) : string :=
  match s with
  | EmptyString => EmptyString
  | String c rest =>
      if unreserved c then String c (encodeURIComponent rest)
      else
        let n := nat_of_ascii c in
        String "%" (String (hex_digit (n / 16)) (String (hex_digit (n mod 16))
                                                   (encodeURIComponent rest)))
  end.

(** The text between double quotes. *)
Definition quoted (s : string) : string :=
  String dquote (s ++ String dquote EmptyString).

(** A deployment: the credentials it was started with and the network it
    talks to. *)
Definition host (app_id app_key : option string)
                (network : Route.Outbound -> thrown + Route.Upstream) : Route.Host :=
  {| Route.JSON_parse := JSON_parse;
     Route.encodeURIComponent := encodeURIComponent;
     Route.status_range_message :=
       fun _ => "init[" ++ quoted "status"
                ++ "] must be in the range of 200 to 599, inclusive.";
     Route.null_body_message :=
       fun s => "Response constructor: Invalid response status code " ++ string_of_Z s;
     Route.APP_ID := app_id;
     Route.APP_KEY := app_key;
     Route.network := network |}.

(** A network whose every answer is the same upstream response. *)
Definition answers (status : Z) (text : string) : Route.Outbound -> thrown + Route.Upstream :=
  fun _ => inr {| Route.up_status := status; Route.up_text := inr text |}.

(** A network that cannot be reached. *)
Definition unreachable : Route.Outbound -> thrown + Route.Upstream :=
  fun _ => inl (ErrorObj "fetch failed").

End Reference.

(** * Vocabulary of the properties

    Requests, responses and predicates the statements below are written
    with, and the sample inputs on which they are run. *)

Section RouteVocabulary.

Import Route.

(** A status the [Response] constructor accepts together with a body. *)
Definition carries_body (s : Z) : bool :=
  (200 <=? s) && (s <=? 599) && negb (null_body_status s).

(** The request [forwardToMathpix] sends. *)
Definition upload_call (h : Host) (bytes : list Byte.byte) : Outbound :=
  {| url := MATHPIX_ENDPOINT; method := "POST";
     headers := [("Content-Type", "application/pdf"); ("Accept", "application/json");
                 ("app_id", nullish (APP_ID h) ""); ("app_key", nullish (APP_KEY h) "")];
     body := Some bytes |}.

(** The request [GET] sends for a job id. *)
Definition status_call (h : Host) (jobId : string) : Outbound :=
  {| url := MATHPIX_ENDPOINT ++ "/" ++ encodeURIComponent h jobId; method := "GET";
     headers := [("Accept", "application/json");
                 ("app_id", nullish (APP_ID h) ""); ("app_key", nullish (APP_KEY h) "")];
     body := None |}.

(** The body of the 500 that missing credentials end in. *)
Definition missing_credentials : json :=
  error_body
    "Mathpix credentials are missing. Set MATHPIX_APP_ID and MATHPIX_APP_KEY env vars.".

(** [error instanceof Error ? error.message : "Unexpected error"] *)
Definition catch_message (e : thrown) : string :=
  match e with
  | ErrorObj m => m
  | NonError => "Unexpected error"
  end.

(** What the [try]/[catch] of a handler makes of the outcome of its [try]
    block: a response is passed on, anything thrown becomes a 500 response
    whose body is [{ error: message }]. *)
Definition answered (r : (thrown + NextResponse) * list Outbound)
  : (thrown + NextResponse) * list Outbound :=
  match r with
  | (inr response, log) => (inr response, log)
  | (inl e, log) =>
      (inr {| status := 500; payload := error_body (catch_message e) |}, log)
  end.

(** What both handlers relay for an upstream body [text]: the parsed
    value, the text itself when it does not parse, and [fallback] when it
    parses to [null]. *)
Definition relayed (h : Host) (text : string) (fallback : json) : json :=
  match JSON_parse h text with
  | Some JNull => fallback
  | Some v => v
  | None => JStr text
  end.

Definition status_fallback (s : Z) : json :=
  error_body ("Mathpix status lookup failed with " ++ string_of_Z s ++ ".").

End RouteVocabulary.

Section PageVocabulary.

Import Page.Payload.
Import Page.

(** Clamping to the unit interval, as the specification words it. *)
Definition clamp01 (q : Q) : Q := Qmax 0 (Qmin q 1).

(** A status after four of ten pages, and one that reports more pages
    processed than there are. *)
Definition processing (n p : Z) : Payload.PdfJobStatus :=
  {| Payload.job_id := None; Payload.status := Some "processing";
     Payload.num_pages := Some n; Payload.pages_processed := Some p;
     Payload.error := None; Payload.data := None; Payload.markdown := None;
     Payload.html := None; Payload.text := None; Payload.pdf_url := None;
     Payload.conversion_status := None |}.

(** An upload response as the proxy relays it. *)
Definition upload_payload (job generic pdf : option string) : Payload.Upload :=
  {| Payload.base :=
       {| Payload.job_id := job; Payload.status := Some "queued";
          Payload.num_pages := None; Payload.pages_processed := None;
          Payload.error := None; Payload.data := None; Payload.markdown := None;
          Payload.html := None; Payload.text := None; Payload.pdf_url := None;
          Payload.conversion_status := None |};
     Payload.success := None; Payload.id := generic; Payload.pdf_id := pdf |}.

Definition idle : State :=
  {| isSubmitting := false; status := None; jobId := None; error := None;
     markdown := ""; rawResponse := None |}.

Definition pdf_file : File :=
  {| file_type := "application/pdf"; file_bytes := [Byte.x25; Byte.x50] |}.

Definition upload_response (payload : Payload.Upload) : UploadResponse :=
  {| upload_ok := true; upload_text := inr ""; upload_json := inr payload |}.

(** The candidate fields in the priority order of the specification:
    [data.value], [markdown], [html], [text]. *)
Definition candidates (payload : Payload.PdfJobStatus) : list (option string) :=
  [match Payload.data payload with Some d => Payload.value d | None => None end;
   Payload.markdown payload; Payload.html payload; Payload.text payload].

(** "First non-empty field wins", as the specification words it: a missing
    field and an empty one are both passed over. *)
Fixpoint first_nonempty (fields : list (option string)) : string :=
  match fields with
  | [] => ""
  | f :: rest => if truthy f then nullish f "" else first_nonempty rest
  end.

(** The first field that is present, empty or not. *)
Fixpoint first_present (fields : list (option string)) : string :=
  match fields with
  | [] => ""
  | Some v :: _ => v
  | None :: rest => first_present rest
  end.

(** A status payload with the given [status], [data.value] and
    [markdown]. *)
Definition result_payload (st : string) (v md : option string) : Payload.PdfJobStatus :=
  {| Payload.job_id := None; Payload.status := Some st;
     Payload.num_pages := None; Payload.pages_processed := None;
     Payload.error := None;
     Payload.data := Some {| Payload.type := None; Payload.value := v |};
     Payload.markdown := md; Payload.html := None; Payload.text := None;
     Payload.pdf_url := None; Payload.conversion_status := None |}.

(** A state in which the job ["abc123"] is tracked. *)
Definition tracking : State :=
  {| isSubmitting := false; status := None; jobId := Some "abc123"; error := None;
     markdown := ""; rawResponse := None |}.

(** The session the effect starts for [tracking], and that session once
    its first poll has been sent and answered with a 200 whose body is
    being read. *)
Definition first_session : Session :=
  schedule_poll {| ui := tracking; tracked := "abc123"; ignore := false; timer := None;
                   pending := []; fresh := 1%positive; running := []; requests := [] |}.

Definition reading_first_poll : Session :=
  run [TimerFires 1%positive;
       FetchSettles 1%positive (inr {| ok := true; http_status := 200 |})]
      first_session.

(** Polls are serial: either one timeout is scheduled, it is the one
    remembered in [timer], and no call of [poll] is suspended; or no
    timeout is scheduled and at most one call of [poll] is suspended. *)
Definition serial (s : Session) : Prop :=
  match pending s, running s with
  | [], [] => True
  | [(h, _)], [] => timer s = Some h
  | [], [_] => True
  | _, _ => False
  end.

(** A session after its cleanup has run: the flag is set and nothing is
    scheduled. *)
Definition torn_down (s : Session) : Prop :=
  ignore s = true /\ pending s = [].

(** The events of a session interleaved with the other writers of the
    React state (the form handler, a later session). *)
Inductive Action : Type :=
| Own (ev : Event)
| Other (write : State -> State).

Definition act (a : Action) (s : Session) : Session :=
  match a with
  | Own ev => step ev s
  | Other write => with_ui write s
  end.

Fixpoint play (acts : list Action) (s : Session) : Session :=
  match acts with
  | [] => s
  | a :: rest => play rest (act a s)
  end.

(** What the other writers alone make of a state. *)
Fixpoint others (acts : list Action) (st : State) : State :=
  match acts with
  | [] => st
  | Own _ :: rest => others rest st
  | Other write :: rest => others rest (write st)
  end.

End PageVocabulary.

Section FurtherVocabulary.

(** The request that reaches the proxy when [handleSubmit] posts a form
    holding [file] under the name ["file"]
    ([formData.append("file", file)]). *)
Definition submitted (file : Page.File) : Route.PostRequest :=
  {| Route.formData :=
       inr [("file", Route.EntryFile (Page.file_type file) (Page.file_bytes file))] |}.

(** A status payload that reports [st] with the error text [err]. *)
Definition failure_payload (st : string) (err : option string) : Page.Payload.PdfJobStatus :=
  {| Page.Payload.job_id := None; Page.Payload.status := Some st;
     Page.Payload.num_pages := None; Page.Payload.pages_processed := None;
     Page.Payload.error := err; Page.Payload.data := None;
     Page.Payload.markdown := None; Page.Payload.html := None;
     Page.Payload.text := None; Page.Payload.pdf_url := None;
     Page.Payload.conversion_status := None |}.

(** Every scheduled timeout has the polling interval as its delay. *)
Definition fixed_interval (s : Page.Session) : Prop :=
  Forall (fun p => snd p = Page.POLL_INTERVAL_MS) (Page.pending s).

End FurtherVocabulary.

(** * The reference parser on sample bodies *)

Example JSON_parse_empty : Reference.JSON_parse "" = None.
Proof. reflexivity. Qed.
Example JSON_parse_null : Reference.JSON_parse " null " = Some JNull.
Proof. reflexivity. Qed.
Example JSON_parse_obj :
  Reference.JSON_parse ("{" ++ Reference.quoted "a" ++ ": [1, true, "
                        ++ Reference.quoted "x" ++ "], " ++ Reference.quoted "b" ++ ":{} }")
  = Some (JObj [("a", JArr [JNum (Finite 1); JBool true; JStr "x"]); ("b", JObj [])]).
Proof. vm_compute. reflexivity. Qed.
Example JSON_parse_text : Reference.JSON_parse "Bad Gateway" = None.
Proof. reflexivity. Qed.
Example JSON_parse_overflow :
  Reference.JSON_parse "[1e400, -1e400, -0, 1e-400]"
  = Some (JArr [JNum (Infinite false); JNum (Infinite true); JNum NegZero; JNum (Finite 0)]).
Proof. vm_compute. reflexivity. Qed.
Example JSON_parse_rounds :
  Reference.JSON_parse "[0.1, 9007199254740993]"
  = Some (JArr [JNum (Finite (3602879701896397 # 36028797018963968));
                JNum (Finite 9007199254740992)]).
Proof. vm_compute. reflexivity. Qed.
Example JSON_parse_keys :
  Reference.JSON_parse ("{" ++ Reference.quoted "b" ++ ":1," ++ Reference.quoted "1" ++ ":2,"
                        ++ Reference.quoted "b" ++ ":3}")
  = Some (JObj [("1", JNum (Finite 2)); ("b", JNum (Finite 3))]).
Proof. vm_compute. reflexivity. Qed.
Example JSON_parse_escape :
  Reference.JSON_parse (Reference.quoted "\u00e9\n")
  = Some (JStr (String (ascii_of_nat 195) (String (ascii_of_nat 169)
                  (String (ascii_of_nat 10) EmptyString)))).
Proof. vm_compute. reflexivity. Qed.
Example encodeURIComponent_reserved :
  Reference.encodeURIComponent "2024/job id?x=1" = "2024%2Fjob%20id%3Fx%3D1".
Proof. reflexivity. Qed.

(** * Properties of the proxy route *)

Section RouteProperties.

Import Route.

(** A value without infinities and negative zero is written as it is. *)
Lemma stringified_as_is : forall v : json, written_as_is v = true -> stringified v = v.
Proof.
  fix IH 1. intros [ | b | x | s | items | fields]; simpl; try reflexivity.
  - destruct x; [reflexivity | discriminate | discriminate].
  - intros Hall. f_equal.
    induction items as [ | item rest IHrest]; simpl in *; [reflexivity | ].
    apply andb_prop in Hall. destruct Hall as [Hitem Hrest].
    rewrite (IH item Hitem), (IHrest Hrest). reflexivity.
  - intros Hall. f_equal.
    induction fields as [ | [k x] rest IHrest]; simpl in *; [reflexivity | ].
    apply andb_prop in Hall. destruct Hall as [Hx Hrest].
    rewrite (IH x Hx), (IHrest Hrest). reflexivity.
Qed.

Lemma NextResponse_json_accepts (h : Host) (body : json) (s : Z) (log : list Outbound) :
  carries_body s = true ->
  NextResponse_json h body (Some s) log =
  (inr {| status := s; payload := stringified body |}, log).
Proof.
  unfold carries_body, NextResponse_json, nullish. intros Hs.
  apply andb_prop in Hs. destruct Hs as [Hrange Hnull].
  apply andb_prop in Hrange. destruct Hrange as [Hlo Hhi].
  replace (s <? 200) with false by (symmetry; apply Z.ltb_ge; apply Z.leb_le; exact Hlo).
  replace (599 <? s) with false by (symmetry; apply Z.ltb_ge; apply Z.leb_le; exact Hhi).
  apply negb_true_iff in Hnull. rewrite Hnull. reflexivity.
Qed.

Lemma NextResponse_json_refuses (h : Host) (body : json) (s : Z) (log : list Outbound) :
  carries_body s = false ->
  exists message, NextResponse_json h body (Some s) log = (inl (ErrorObj message), log).
Proof.
  unfold carries_body, NextResponse_json, nullish, throw. intros Hs.
  destruct ((s <? 200) || (599 <? s)) eqn:Hrange.
  - eexists. reflexivity.
  - destruct (null_body_status s) eqn:Hnull.
    + eexists. reflexivity.
    + exfalso. apply orb_false_elim in Hrange. destruct Hrange as [Hlo Hhi].
      apply Z.ltb_ge in Hlo. apply Z.ltb_ge in Hhi.
      apply Z.leb_le in Hlo. apply Z.leb_le in Hhi.
      rewrite Hlo, Hhi in Hs. discriminate Hs.
Qed.

(** The [catch] clause always produces its response. *)
Lemma on_error_returns (h : Host) (e : thrown) (log : list Outbound) :
  on_error h e log =
  (inr {| status := 500;
          payload := error_body (match e with
                                 | ErrorObj m => m
                                 | NonError => "Unexpected error"
                                 end) |}, log).
Proof. destruct e; reflexivity. Qed.

Lemma credentials_present (h : Host) (log : list Outbound) :
  truthy (APP_ID h) = true -> truthy (APP_KEY h) = true ->
  getCredentialHeader h log = (inr (nullish (APP_ID h) "", nullish (APP_KEY h) ""), log).
Proof.
  intros Hid Hkey. unfold getCredentialHeader. rewrite Hid, Hkey. reflexivity.
Qed.

Lemma credentials_missing (h : Host) (log : list Outbound) :
  truthy (APP_ID h) && truthy (APP_KEY h) = false ->
  getCredentialHeader h log =
  (inl (ErrorObj
     "Mathpix credentials are missing. Set MATHPIX_APP_ID and MATHPIX_APP_KEY env vars."),
   log).
Proof.
  intros Hmiss. unfold getCredentialHeader.
  destruct (truthy (APP_ID h)), (truthy (APP_KEY h)); try discriminate Hmiss; reflexivity.
Qed.

(** ** C8: an upload without a file *)

(** C8.  When the form data of an upload holds no file under ["file"] (the
    entry is missing or is a plain string), [POST] answers 400 with its
    "missing payload" error and the log of outbound calls is unchanged,
    whatever the credentials and the network are. *)
Theorem POST_missing_file_400 (h : Host) (request : PostRequest)
    (fd : list (string * FormDataEntryValue)) (log : list Outbound) :
  formData request = inr fd ->
  (forall type bytes, FormData_get "file" fd <> Some (EntryFile type bytes)) ->
  POST h request log =
  (inr {| status := 400; payload := error_body "Missing PDF file payload." |}, log).
Proof.
  intros Hfd Hnofile.
  unfold POST, try_catch, POST_try, bind, await. rewrite Hfd.
  destruct (FormData_get "file" fd) as [[s | type bytes] | ] eqn:Hget.
  - reflexivity.
  - exfalso. apply (Hnofile type bytes). reflexivity.
  - reflexivity.
Qed.

Lemma POST_missing_file_400_witness :
  POST (Reference.host (Some "id") (Some "key") (Reference.answers 200 "{}"))
       {| formData := inr [("note", EntryString "hello"); ("file", EntryString "not a blob")] |}
       []
  = (inr {| status := 400; payload := error_body "Missing PDF file payload." |}, []).
Proof.
  apply (POST_missing_file_400 _ _
           [("note", EntryString "hello"); ("file", EntryString "not a blob")]).
  - reflexivity.
  - intros type bytes. simpl. discriminate.
Defined.

(** ** C9: an upload with a declared media type *)

Lemma POST_forwards (h : Host) (request : PostRequest)
    (fd : list (string * FormDataEntryValue)) (type : string) (bytes : list Byte.byte)
    (log : list Outbound) :
  formData request = inr fd ->
  FormData_get "file" fd = Some (EntryFile type bytes) ->
  truthy_string type && negb (String.eqb type "application/pdf") = false ->
  truthy (APP_ID h) = true -> truthy (APP_KEY h) = true ->
  snd (POST h request log) = (log ++ [upload_call h bytes])%list.
Proof.
  intros Hfd Hget Htype Hid Hkey.
  unfold POST, try_catch, POST_try, bind, await. rewrite Hfd, Hget, Htype.
  unfold forwardToMathpix, bind. rewrite (credentials_present h log Hid Hkey).
  unfold fetch, await. fold (upload_call h bytes).
  destruct (network h (upload_call h bytes)) as [e | response].
  - rewrite on_error_returns. reflexivity.
  - destruct (up_text response) as [e | text].
    + rewrite on_error_returns. reflexivity.
    + unfold ret.
      destruct (negb (ok response)).
      * destruct (carries_body (up_status response)) eqn:Hs.
        -- rewrite (NextResponse_json_accepts h _ _ _ Hs). reflexivity.
        -- destruct (NextResponse_json_refuses h
                       (json_nullish (parse_or_text h text)
                          (error_body "Mathpix rejected the request."))
                       _ (log ++ [upload_call h bytes])%list Hs) as [m Hm].
           rewrite Hm, on_error_returns. reflexivity.
      * reflexivity.
Qed.

(** C9.  When the uploaded file declares a media type that is not empty
    and is not [application/pdf], [POST] answers 400 with its "only
    application/pdf" error and makes no outbound call.  A file that declares
    no media type (the empty string) passes this check: with the credentials
    configured it is sent upstream. *)
Theorem POST_media_type_check (h : Host) (request : PostRequest)
    (fd : list (string * FormDataEntryValue)) (type : string) (bytes : list Byte.byte)
    (log : list Outbound) :
  formData request = inr fd ->
  FormData_get "file" fd = Some (EntryFile type bytes) ->
  (type <> "" -> type <> "application/pdf" ->
     POST h request log =
     (inr {| status := 400;
             payload := error_body "Only application/pdf uploads are supported." |}, log))
  /\
  (type = "" -> truthy (APP_ID h) = true -> truthy (APP_KEY h) = true ->
     snd (POST h request log) = (log ++ [upload_call h bytes])%list).
Proof.
  intros Hfd Hget. split.
  - intros Hnonempty Hnotpdf.
    unfold POST, try_catch, POST_try, bind, await. rewrite Hfd, Hget.
    assert (Htruthy : truthy_string type = true).
    { destruct type; [contradiction Hnonempty; reflexivity | reflexivity]. }
    assert (Hneq : String.eqb type "application/pdf" = false).
    { apply String.eqb_neq. exact Hnotpdf. }
    rewrite Htruthy, Hneq. reflexivity.
  - intros Hempty Hid Hkey. subst type.
    apply (POST_forwards h request fd "" bytes log Hfd Hget); auto.
Qed.

Lemma POST_media_type_check_witness :
  (POST (Reference.host (Some "id") (Some "key") (Reference.answers 200 "{}"))
        {| formData := inr [("file", EntryFile "image/png" [Byte.x89; Byte.x50])] |} []
   = (inr {| status := 400;
             payload := error_body "Only application/pdf uploads are supported." |}, []))
  /\
  (snd (POST (Reference.host (Some "id") (Some "key") (Reference.answers 200 "{}"))
             {| formData := inr [("file", EntryFile "" [Byte.x25; Byte.x50])] |} [])
   = [upload_call (Reference.host (Some "id") (Some "key") (Reference.answers 200 "{}"))
                  [Byte.x25; Byte.x50]]).
Proof.
  split.
  - apply (proj1 (POST_media_type_check
                    (Reference.host (Some "id") (Some "key") (Reference.answers 200 "{}"))
                    {| formData := inr [("file", EntryFile "image/png" [Byte.x89; Byte.x50])] |}
                    [("file", EntryFile "image/png" [Byte.x89; Byte.x50])]
                    "image/png" [Byte.x89; Byte.x50] [] eq_refl eq_refl));
      discriminate.
  - apply (proj2 (POST_media_type_check
                    (Reference.host (Some "id") (Some "key") (Reference.answers 200 "{}"))
                    {| formData := inr [("file", EntryFile "" [Byte.x25; Byte.x50])] |}
                    [("file", EntryFile "" [Byte.x25; Byte.x50])]
                    "" [Byte.x25; Byte.x50] [] eq_refl eq_refl));
      reflexivity.
Defined.

(** ** C10: the handlers always answer *)

Lemma try_catch_on_error (h : Host) (body : M NextResponse) (log : list Outbound) :
  try_catch body (on_error h) log = answered (body log).
Proof.
  unfold try_catch, answered.
  destruct (body log) as [[e | response] log'].
  - rewrite on_error_returns. reflexivity.
  - reflexivity.
Qed.

(** C10.  Both handlers return a response on every host, request and log:
    [POST] and [GET] never end in a thrown value; and whatever their [try]
    block throws (a rejected [formData()], missing credentials, a rejected
    [fetch] or [text()], a status the [Response] constructor refuses) comes
    back as status 500 with body [{ error: message }]. *)
Theorem handlers_always_respond (h : Host) (log : list Outbound) :
  (forall request : PostRequest,
      POST h request log = answered (POST_try h request log)
      /\ exists response log', POST h request log = (inr response, log'))
  /\
  (forall request : GetRequest,
      GET h request log = answered (GET_try h request log)
      /\ exists response log', GET h request log = (inr response, log')).
Proof.
  split; intros request.
  - unfold POST. rewrite try_catch_on_error. split; [reflexivity | ].
    destruct (POST_try h request log) as [[e | response] log']; simpl; eauto.
  - unfold GET. rewrite try_catch_on_error. split; [reflexivity | ].
    destruct (GET_try h request log) as [[e | response] log']; simpl; eauto.
Qed.

(** The three failures the claim names, on the reference host. *)
Example POST_formData_rejected :
  POST (Reference.host (Some "id") (Some "key") (Reference.answers 200 "{}"))
       {| formData := inl (ErrorObj "Failed to parse body as FormData.") |} []
  = (inr {| status := 500; payload := error_body "Failed to parse body as FormData." |}, []).
Proof. reflexivity. Qed.

Example POST_without_credentials :
  POST (Reference.host None (Some "key") (Reference.answers 200 "{}"))
       {| formData := inr [("file", EntryFile "application/pdf" [Byte.x25])] |} []
  = (inr {| status := 500; payload := missing_credentials |}, []).
Proof. reflexivity. Qed.

Example GET_network_failure :
  GET (Reference.host (Some "id") (Some "key") Reference.unreachable)
      {| searchParams := [("jobId", "abc123")] |} []
  = (inr {| status := 500; payload := error_body "fetch failed" |},
     [status_call (Reference.host (Some "id") (Some "key") Reference.unreachable) "abc123"]).
Proof. reflexivity. Qed.

(** ** C3: a status request without a job id *)

(** C3, as stated, fails: [GET] reads the credentials before it looks at
    the query, so on a host without credentials a request without [jobId]
    is answered 500, not 4xx. *)
Lemma GET_missing_jobId_not_always_4xx :
  searchParams_get "jobId" (searchParams {| searchParams := [("page", "2")] |}) = None
  /\ GET (Reference.host None None (Reference.answers 200 "{}"))
         {| searchParams := [("page", "2")] |} []
     = (inr {| status := 500; payload := missing_credentials |}, [])
  /\ ~ (forall (h : Host) (request : GetRequest) (log : list Outbound),
          searchParams_get "jobId" (searchParams request) = None ->
          exists response,
            GET h request log = (inr response, log)
            /\ 400 <= status response <= 499).
Proof.
  split; [reflexivity | split; [reflexivity | ]].
  intros Hclaim.
  destruct (Hclaim (Reference.host None None (Reference.answers 200 "{}"))
                   {| searchParams := [("page", "2")] |} [] eq_refl)
    as [response [Hget Hrange]].
  vm_compute in Hget. inversion Hget; subst response. simpl in Hrange. lia.
Qed.

(** C3, amended.  A status request without [jobId] never causes an
    outbound call; it is answered 400 with the "jobId is required" error
    when both credentials are configured, and 500 with the credentials
    error when one is missing. *)
Theorem GET_missing_jobId (h : Host) (request : GetRequest) (log : list Outbound) :
  searchParams_get "jobId" (searchParams request) = None ->
  snd (GET h request log) = log
  /\ (truthy (APP_ID h) && truthy (APP_KEY h) = true ->
        GET h request log =
        (inr {| status := 400;
                payload := error_body "jobId query parameter is required." |}, log))
  /\ (truthy (APP_ID h) && truthy (APP_KEY h) = false ->
        GET h request log =
        (inr {| status := 500; payload := missing_credentials |}, log)).
Proof.
  intros Hjob.
  assert (Hpresent : truthy (APP_ID h) && truthy (APP_KEY h) = true ->
            GET h request log =
            (inr {| status := 400;
                    payload := error_body "jobId query parameter is required." |}, log)).
  { intros Hcred. apply andb_prop in Hcred. destruct Hcred as [Hid Hkey].
    unfold GET, try_catch, GET_try, bind.
    rewrite (credentials_present h log Hid Hkey). rewrite Hjob. reflexivity. }
  assert (Hmissing : truthy (APP_ID h) && truthy (APP_KEY h) = false ->
            GET h request log =
            (inr {| status := 500; payload := missing_credentials |}, log)).
  { intros Hcred. unfold GET, try_catch, GET_try, bind.
    rewrite (credentials_missing h log Hcred). reflexivity. }
  split; [ | split; assumption].
  destruct (truthy (APP_ID h) && truthy (APP_KEY h)) eqn:Hcred.
  - rewrite (Hpresent eq_refl). reflexivity.
  - rewrite (Hmissing eq_refl). reflexivity.
Qed.

Lemma GET_missing_jobId_witness :
  snd (GET (Reference.host (Some "id") (Some "key") (Reference.answers 200 "{}"))
           {| searchParams := [("page", "2")] |} []) = []
  /\ GET (Reference.host (Some "id") (Some "key") (Reference.answers 200 "{}"))
         {| searchParams := [("page", "2")] |} []
     = (inr {| status := 400;
               payload := error_body "jobId query parameter is required." |}, []).
Proof.
  pose proof (GET_missing_jobId
                (Reference.host (Some "id") (Some "key") (Reference.answers 200 "{}"))
                {| searchParams := [("page", "2")] |} [] eq_refl) as [Hlog [Hpresent _]].
  split.
  - exact Hlog.
  - apply Hpresent. reflexivity.
Defined.

(** ** C4 and C7: upstream failures *)

Lemma json_nullish_relayed (h : Host) (text : string) (fallback : json) :
  json_nullish (parse_or_text h text) fallback = relayed h text fallback.
Proof.
  unfold parse_or_text, relayed.
  destruct (JSON_parse h text) as [v | ]; [destruct v | ]; reflexivity.
Qed.

(** C4, as stated, fails in both directions on a 500 from upstream: an
    empty body is relayed as the empty string, without the fallback
    message; and the body [null], which is not empty, is replaced by the
    fallback message. *)
Lemma GET_fallback_not_iff_empty_body :
  GET (Reference.host (Some "id") (Some "key") (Reference.answers 500 ""))
      {| searchParams := [("jobId", "abc123")] |} []
  = (inr {| status := 500; payload := JStr "" |},
     [status_call (Reference.host (Some "id") (Some "key") (Reference.answers 500 ""))
                  "abc123"])
  /\ JStr "" <> status_fallback 500
  /\ GET (Reference.host (Some "id") (Some "key") (Reference.answers 500 "null"))
         {| searchParams := [("jobId", "abc123")] |} []
     = (inr {| status := 500; payload := status_fallback 500 |},
        [status_call (Reference.host (Some "id") (Some "key") (Reference.answers 500 "null"))
                     "abc123"])
  /\ "null" <> "".
Proof.
  split; [reflexivity | split; [discriminate | split; [reflexivity | discriminate]]].
Qed.

(** C4, amended.  When the credentials are configured, the request names a
    job and the upstream answers with a status that is not 2xx (and that a
    response with a body may carry) and a body that is not empty, [GET]
    makes that one call and answers with the upstream status; the body is
    what [JSON.stringify] writes of the parsed upstream JSON (the value
    itself, unless it holds a number too large for a double or a negative
    zero), or of the upstream text as a string when it is not JSON; the
    fallback message is the body exactly when the upstream body parses to
    [null]. *)
Theorem GET_relays_upstream_failure (h : Host) (request : GetRequest) (jobId : string)
    (upstream : Upstream) (text : string) (log : list Outbound) :
  truthy (APP_ID h) = true -> truthy (APP_KEY h) = true ->
  searchParams_get "jobId" (searchParams request) = Some jobId ->
  jobId <> "" ->
  network h (status_call h jobId) = inr upstream ->
  up_text upstream = inr text ->
  text <> "" ->
  ok upstream = false ->
  carries_body (up_status upstream) = true ->
  GET h request log =
  (inr {| status := up_status upstream;
          payload := match JSON_parse h text with
                     | Some JNull => status_fallback (up_status upstream)
                     | Some v => stringified v
                     | None => JStr text
                     end |},
   (log ++ [status_call h jobId])%list)
  /\ (forall v, JSON_parse h text = Some v -> written_as_is v = true -> stringified v = v).
Proof.
  intros Hid Hkey Hjob Hnonempty Hnet Htext Hbody Hok Hstatus.
  split; [ | intros v _ Hv; apply stringified_as_is; exact Hv].
  unfold GET, try_catch, GET_try, bind.
  rewrite (credentials_present h log Hid Hkey). rewrite Hjob.
  assert (Htruthy : truthy (Some jobId) = true).
  { destruct jobId; [contradiction Hnonempty; reflexivity | reflexivity]. }
  rewrite Htruthy. unfold fetch, await.
  change (nullish (Some jobId) "") with jobId. fold (status_call h jobId).
  rewrite Hnet, Htext, Hok. cbn [negb]. cbv beta iota.
  rewrite json_nullish_relayed.
  rewrite (NextResponse_json_accepts h _ _ _ Hstatus).
  unfold relayed. destruct (JSON_parse h text) as [[ | b | x | str | items | fields] | ];
    reflexivity.
Qed.

Lemma GET_relays_upstream_failure_witness :
  GET (Reference.host (Some "id") (Some "key") (Reference.answers 502 "Bad Gateway"))
      {| searchParams := [("jobId", "abc123")] |} []
  = (inr {| status := 502; payload := JStr "Bad Gateway" |},
     [status_call (Reference.host (Some "id") (Some "key")
                     (Reference.answers 502 "Bad Gateway")) "abc123"]).
Proof.
  apply (proj1 (GET_relays_upstream_failure
                  (Reference.host (Some "id") (Some "key")
                     (Reference.answers 502 "Bad Gateway"))
                  {| searchParams := [("jobId", "abc123")] |} "abc123"
                  {| up_status := 502; up_text := inr "Bad Gateway" |} "Bad Gateway" []
                  eq_refl eq_refl eq_refl ltac:(discriminate) eq_refl eq_refl
                  ltac:(discriminate) eq_refl eq_refl)).
Defined.

(** C7, as stated, fails: [null] is a JSON body, and on an upstream 401
    with that body the upload proxy answers 401 with its own error object
    in place of the upstream body. *)
Lemma POST_null_body_replaced :
  JSON_parse (Reference.host (Some "id") (Some "key") (Reference.answers 401 "null")) "null"
  = Some JNull
  /\ POST (Reference.host (Some "id") (Some "key") (Reference.answers 401 "null"))
          {| formData := inr [("file", EntryFile "application/pdf" [Byte.x25; Byte.x50])] |} []
     = (inr {| status := 401; payload := error_body "Mathpix rejected the request." |},
        [upload_call (Reference.host (Some "id") (Some "key") (Reference.answers 401 "null"))
                     [Byte.x25; Byte.x50]])
  /\ error_body "Mathpix rejected the request." <> JNull.
Proof.
  split; [reflexivity | split; [reflexivity | discriminate]].
Qed.

(** C7, amended.  When an upload passes the checks of the proxy, the
    credentials are configured and the upstream answers with a status that
    is not 2xx (and that a response with a body may carry) and a body that
    parses as JSON, [POST] answers with that status.  For a value other
    than [null] the body is what [JSON.stringify] writes of that value: the
    value itself, unchanged, unless it holds a number too large for a
    double (written [null]) or a negative zero (written [0]); an upstream
    401 with a JSON error object comes back as 401 with that object.  A
    body that parses to [null] is replaced by the error object of the
    proxy, "Mathpix rejected the request.". *)
Theorem POST_relays_upstream_failure (h : Host) (request : PostRequest)
    (fd : list (string * FormDataEntryValue)) (type : string) (bytes : list Byte.byte)
    (upstream : Upstream) (text : string) (v : json) (log : list Outbound) :
  formData request = inr fd ->
  FormData_get "file" fd = Some (EntryFile type bytes) ->
  type = "" \/ type = "application/pdf" ->
  truthy (APP_ID h) = true -> truthy (APP_KEY h) = true ->
  network h (upload_call h bytes) = inr upstream ->
  up_text upstream = inr text ->
  ok upstream = false ->
  carries_body (up_status upstream) = true ->
  JSON_parse h text = Some v ->
  POST h request log =
  (inr {| status := up_status upstream;
          payload := match v with
                     | JNull => error_body "Mathpix rejected the request."
                     | _ => stringified v
                     end |},
   (log ++ [upload_call h bytes])%list)
  /\ (written_as_is v = true -> stringified v = v).
Proof.
  intros Hfd Hget Htype Hid Hkey Hnet Htext Hok Hstatus Hparse.
  split; [ | apply stringified_as_is].
  unfold POST, try_catch, POST_try, bind, await. rewrite Hfd, Hget.
  assert (Hcheck : truthy_string type && negb (String.eqb type "application/pdf") = false).
  { destruct Htype as [Htype | Htype]; subst type; reflexivity. }
  rewrite Hcheck.
  unfold forwardToMathpix, bind. rewrite (credentials_present h log Hid Hkey).
  unfold fetch, await, ret. fold (upload_call h bytes).
  rewrite Hnet, Htext, Hok. cbn [negb]. cbv beta iota.
  rewrite json_nullish_relayed. unfold relayed. rewrite Hparse.
  rewrite (NextResponse_json_accepts h _ _ _ Hstatus).
  destruct v; reflexivity.
Qed.

Lemma POST_relays_upstream_failure_witness :
  POST (Reference.host (Some "id") (Some "key")
          (Reference.answers 401
             ("{" ++ Reference.quoted "error" ++ ":" ++ Reference.quoted "Invalid credentials"
                  ++ "}")))
       {| formData := inr [("file", EntryFile "application/pdf" [Byte.x25; Byte.x50])] |} []
  = (inr {| status := 401; payload := JObj [("error", JStr "Invalid credentials")] |},
     [upload_call (Reference.host (Some "id") (Some "key") Reference.unreachable)
                  [Byte.x25; Byte.x50]]).
Proof.
  apply (proj1 (POST_relays_upstream_failure
           (Reference.host (Some "id") (Some "key")
              (Reference.answers 401
                 ("{" ++ Reference.quoted "error" ++ ":"
                      ++ Reference.quoted "Invalid credentials" ++ "}")))
           {| formData := inr [("file", EntryFile "application/pdf" [Byte.x25; Byte.x50])] |}
           [("file", EntryFile "application/pdf" [Byte.x25; Byte.x50])]
           "application/pdf" [Byte.x25; Byte.x50]
           {| up_status := 401;
              up_text := inr ("{" ++ Reference.quoted "error" ++ ":"
                                  ++ Reference.quoted "Invalid credentials" ++ "}") |}
           ("{" ++ Reference.quoted "error" ++ ":"
                ++ Reference.quoted "Invalid credentials" ++ "}")
           (JObj [("error", JStr "Invalid credentials")]) []
           eq_refl eq_refl (or_intror eq_refl) eq_refl eq_refl eq_refl eq_refl eq_refl
           eq_refl eq_refl)).
Defined.

End RouteProperties.

(** * Properties of the page component *)

Section PageProperties.

Import Page.Payload.
Import Page.

(** ** C5: the progress fraction *)

Lemma ratio_nonneg (p n : Z) : 0 <= p -> 0 < n -> (0 <= inject_Z p / inject_Z n)%Q.
Proof.
  intros Hp Hn. unfold Qdiv.
  apply Qmult_le_0_compat.
  - change 0%Q with (inject_Z 0). rewrite <- Zle_Qle. exact Hp.
  - apply Qinv_le_0_compat. change 0%Q with (inject_Z 0). rewrite <- Zle_Qle. lia.
Qed.

Lemma clamp01_nonneg (q : Q) : (0 <= q)%Q -> (clamp01 q == Qmin q 1)%Q.
Proof.
  intros Hq. unfold clamp01. apply Q.max_r.
  apply Q.min_glb; [exact Hq | discriminate].
Qed.

(** C5, as stated, fails: the fraction is clamped from above only
    ([Math.min(..., 1)]), so a payload whose [num_pages] is negative gives a
    negative progress, for a [pages_processed] that is not negative. *)
Lemma progress_below_zero :
  status_num_pages (Some (processing (-10) 4)) = Some (-10)
  /\ status_pages_processed (Some (processing (-10) 4)) = Some 4
  /\ (progress (Some (processing (-10) 4)) == - (4 # 10))%Q
  /\ ~ (0 <= progress (Some (processing (-10) 4)))%Q.
Proof.
  split; [reflexivity | split; [reflexivity | split; [reflexivity | ]]].
  intros Hle. vm_compute in Hle. apply Hle. reflexivity.
Qed.

(** C5, amended.  For a status whose page counters, where present, are
    integers that are not negative, [progress] lies between 0 and 1; with
    [num_pages > 0] and [pages_processed] present it is their quotient
    clamped to the unit interval; and it is 0 when [num_pages] is 0 or
    missing (also when there is no status yet). *)
Theorem progress_in_unit_interval (st : option Payload.PdfJobStatus) :
  (forall n, status_num_pages st = Some n -> 0 <= n) ->
  (forall p, status_pages_processed st = Some p -> 0 <= p) ->
  (0 <= progress st /\ progress st <= 1)%Q
  /\ (forall n p, status_num_pages st = Some n -> status_pages_processed st = Some p ->
                  0 < n -> (progress st == clamp01 (inject_Z p / inject_Z n))%Q)
  /\ (status_num_pages st = None \/ status_num_pages st = Some 0 -> progress st = 0%Q).
Proof.
  intros Hn Hp. unfold progress.
  destruct (status_num_pages st) as [n | ] eqn:En;
    destruct (status_pages_processed st) as [p | ] eqn:Ep; simpl falsy_number.
  - specialize (Hn n eq_refl). specialize (Hp p eq_refl).
    destruct (n =? 0) eqn:Hn0; simpl orb.
    + apply Z.eqb_eq in Hn0. subst n.
      split; [split; discriminate | split; [intros n' p' Hn' _ Hpos | reflexivity]].
      inversion Hn'; subst n'. lia.
    + apply Z.eqb_neq in Hn0. assert (Hpos : 0 < n) by lia.
      pose proof (ratio_nonneg p n Hp Hpos) as Hratio.
      destruct (p =? 0) eqn:Hp0.
      * apply Z.eqb_eq in Hp0. subst p.
        split; [split; discriminate | split].
        -- intros n' p' Hn' Hp' _. inversion Hn'; inversion Hp'; subst n' p'.
           rewrite (clamp01_nonneg _ Hratio).
           assert (Hzero : (inject_Z 0 / inject_Z n == 0)%Q).
           { unfold Qdiv. apply Qmult_0_l. }
           rewrite Hzero. reflexivity.
        -- intros [Hnone | Hzero]; [discriminate Hnone | inversion Hzero; lia].
      * split; [split | split].
        -- apply Q.min_glb; [exact Hratio | discriminate].
        -- apply Q.le_min_r.
        -- intros n' p' Hn' Hp' _. inversion Hn'; inversion Hp'; subst n' p'.
           rewrite (clamp01_nonneg _ Hratio). reflexivity.
        -- intros [Hnone | Hzero]; [discriminate Hnone | inversion Hzero; lia].
  - destruct (n =? 0); simpl orb;
      (split; [split; discriminate | split; [intros n' p' _ Hp' _; discriminate Hp' | reflexivity]]).
  - split; [split; discriminate | split; [intros n' p' Hn' _ _; discriminate Hn' | reflexivity]].
  - split; [split; discriminate | split; [intros n' p' Hn' _ _; discriminate Hn' | reflexivity]].
Qed.

Lemma progress_in_unit_interval_witness :
  (0 <= progress (Some (processing 10 4)) /\ progress (Some (processing 10 4)) <= 1)%Q
  /\ (progress (Some (processing 10 4)) == 4 # 10)%Q
  /\ (progress (Some (processing 10 12)) == 1)%Q.
Proof.
  pose proof (progress_in_unit_interval (Some (processing 10 4))) as H4.
  pose proof (progress_in_unit_interval (Some (processing 10 12))) as H12.
  simpl in H4, H12.
  destruct H4 as [Hrange [Hclamp _]].
  - intros n Hn. inversion Hn. lia.
  - intros p Hp. inversion Hp. lia.
  - destruct H12 as [_ [Hclamp12 _]].
    + intros n Hn. inversion Hn. lia.
    + intros p Hp. inversion Hp. lia.
    + split; [exact Hrange | split].
      * rewrite (Hclamp 10 4 eq_refl eq_refl eq_refl). reflexivity.
      * rewrite (Hclamp12 10 12 eq_refl eq_refl eq_refl). reflexivity.
Defined.

(** ** C6: the job id of an upload response *)

Lemma handleSubmit_begin_resets (files : list File) (st0 st : State) (file : File) :
  handleSubmit_begin files st0 = (st, Some file) ->
  st = {| isSubmitting := true; status := None; jobId := None; error := None;
          markdown := ""; rawResponse := None |}.
Proof.
  unfold handleSubmit_begin. destruct files as [ | f rest]; [discriminate | ].
  destruct (negb (String.eqb (file_type f) "application/pdf")); [discriminate | ].
  intros Heq. inversion Heq. reflexivity.
Qed.

Lemma newJobId_preference (payload : Payload.Upload) :
  (truthy (Payload.job_id payload) = true -> newJobId payload = Payload.job_id payload)
  /\ (truthy (Payload.job_id payload) = false -> truthy (Payload.id payload) = true ->
        newJobId payload = Payload.id payload)
  /\ (truthy (Payload.job_id payload) = false -> truthy (Payload.id payload) = false ->
        newJobId payload = Payload.pdf_id payload).
Proof.
  unfold newJobId, or_else.
  split; [ | split].
  - intros H1. rewrite H1. reflexivity.
  - intros H1 H2. rewrite H1, H2. reflexivity.
  - intros H1 H2. rewrite H1, H2. reflexivity.
Qed.

(** C6.  After a form submission that issued the upload, when the upload
    response is successful and its JSON is [payload]: the job id is
    [job_id] if that is present (a non-empty string), else [id] if that is
    present, else [pdf_id] if that is present; the state then holds this job
    id, the payload as status and raw response, no error, and the polling
    effect schedules its first poll after 5000 ms.  When none of the three
    is present, no job id is set, the error is "Upload succeeded but no job
    id returned by Mathpix." and the polling effect does not start. *)
Theorem handleSubmit_job_id (files : list File) (file : File) (st0 st : State)
    (response : UploadResponse) (payload : Payload.Upload) (handle : positive) :
  handleSubmit_begin files st0 = (st, Some file) ->
  upload_ok response = true ->
  upload_json response = inr payload ->
  (truthy (Payload.job_id payload) = true ->
     jobId (handleSubmit_settle (inr response) st) = Payload.job_id payload)
  /\ (truthy (Payload.job_id payload) = false -> truthy (Payload.id payload) = true ->
        jobId (handleSubmit_settle (inr response) st) = Payload.id payload)
  /\ (truthy (Payload.job_id payload) = false -> truthy (Payload.id payload) = false ->
      truthy (Payload.pdf_id payload) = true ->
        jobId (handleSubmit_settle (inr response) st) = Payload.pdf_id payload)
  /\ (truthy (Payload.job_id payload) = true \/ truthy (Payload.id payload) = true
      \/ truthy (Payload.pdf_id payload) = true ->
        handleSubmit_settle (inr response) st =
        {| isSubmitting := false; status := Some (Payload.base payload);
           jobId := newJobId payload; error := None; markdown := "";
           rawResponse := Some (RawUpload payload) |}
        /\ exists session,
             useEffect_poll (handleSubmit_settle (inr response) st) handle = Some session
             /\ pending session = [(handle, 5000)]
             /\ ignore session = false)
  /\ (truthy (Payload.job_id payload) = false -> truthy (Payload.id payload) = false ->
      truthy (Payload.pdf_id payload) = false ->
        handleSubmit_settle (inr response) st =
        {| isSubmitting := false; status := None; jobId := None;
           error := Some "Upload succeeded but no job id returned by Mathpix.";
           markdown := ""; rawResponse := None |}
        /\ useEffect_poll (handleSubmit_settle (inr response) st) handle = None).
Proof.
  intros Hbegin Hok Hjson.
  apply handleSubmit_begin_resets in Hbegin. subst st.
  destruct (newJobId_preference payload) as [Pjob [Pid Ppdf]].
  assert (Hfound : truthy (newJobId payload) = true ->
            handleSubmit_settle (inr response)
              {| isSubmitting := true; status := None; jobId := None; error := None;
                 markdown := ""; rawResponse := None |} =
            {| isSubmitting := false; status := Some (Payload.base payload);
               jobId := newJobId payload; error := None; markdown := "";
               rawResponse := Some (RawUpload payload) |}).
  { intros Hnew. unfold handleSubmit_settle, handleSubmit_try.
    rewrite Hok, Hjson, Hnew. reflexivity. }
  assert (Hnone : truthy (newJobId payload) = false ->
            handleSubmit_settle (inr response)
              {| isSubmitting := true; status := None; jobId := None; error := None;
                 markdown := ""; rawResponse := None |} =
            {| isSubmitting := false; status := None; jobId := None;
               error := Some "Upload succeeded but no job id returned by Mathpix.";
               markdown := ""; rawResponse := None |}).
  { intros Hnew. unfold handleSubmit_settle, handleSubmit_try.
    rewrite Hok, Hjson, Hnew. reflexivity. }
  split; [ | split; [ | split; [ | split]]].
  - intros H1. rewrite Hfound; rewrite (Pjob H1); [reflexivity | exact H1].
  - intros H1 H2. rewrite Hfound; rewrite (Pid H1 H2); [reflexivity | exact H2].
  - intros H1 H2 H3. rewrite Hfound; rewrite (Ppdf H1 H2); [reflexivity | exact H3].
  - intros Hsome.
    assert (Hnew : truthy (newJobId payload) = true).
    { destruct (truthy (Payload.job_id payload)) eqn:H1.
      - rewrite (Pjob eq_refl). exact H1.
      - destruct (truthy (Payload.id payload)) eqn:H2.
        + rewrite (Pid eq_refl eq_refl). exact H2.
        + rewrite (Ppdf eq_refl eq_refl).
          destruct Hsome as [H | [H | H]]; [discriminate H | discriminate H | exact H]. }
    rewrite (Hfound Hnew). split; [reflexivity | ].
    unfold useEffect_poll. cbn [jobId]. rewrite Hnew. cbn [negb].
    eexists. split; [reflexivity | split; reflexivity].
  - intros H1 H2 H3.
    assert (Hnew : truthy (newJobId payload) = false).
    { rewrite (Ppdf H1 H2). exact H3. }
    rewrite (Hnone Hnew). split; reflexivity.
Qed.

Lemma handleSubmit_job_id_witness :
  jobId (handleSubmit_settle
           (inr (upload_response (upload_payload None (Some "generic") (Some "pdf-7"))))
           (fst (handleSubmit_begin [pdf_file] idle)))
  = Some "generic"
  /\ error (handleSubmit_settle
              (inr (upload_response (upload_payload None (Some "") None)))
              (fst (handleSubmit_begin [pdf_file] idle)))
     = Some "Upload succeeded but no job id returned by Mathpix.".
Proof.
  split.
  - apply (proj1 (proj2 (handleSubmit_job_id [pdf_file] pdf_file idle
                           (fst (handleSubmit_begin [pdf_file] idle))
                           (upload_response (upload_payload None (Some "generic") (Some "pdf-7")))
                           (upload_payload None (Some "generic") (Some "pdf-7")) 1%positive
                           eq_refl eq_refl eq_refl)));
      reflexivity.
  - destruct (proj2 (proj2 (proj2 (proj2
               (handleSubmit_job_id [pdf_file] pdf_file idle
                  (fst (handleSubmit_begin [pdf_file] idle))
                  (upload_response (upload_payload None (Some "") None))
                  (upload_payload None (Some "") None) 1%positive
                  eq_refl eq_refl eq_refl)))) eq_refl eq_refl eq_refl) as [Hstate _].
    rewrite Hstate. reflexivity.
Defined.

(** ** C1: the markdown of a completed job *)

Lemma derivedMarkdown_first_present (payload : Payload.PdfJobStatus) :
  derivedMarkdown payload = first_present (candidates payload).
Proof.
  unfold derivedMarkdown, candidates, coalesce, nullish. simpl.
  destruct (Payload.data payload) as [d | ]; [destruct (Payload.value d) | ];
    try reflexivity;
    destruct (Payload.markdown payload); try reflexivity;
    destruct (Payload.html payload); try reflexivity;
    destruct (Payload.text payload); reflexivity.
Qed.

Lemma stage_of_drop_call (h : positive) (rs : list (positive * Awaiting)) :
  stage_of h (drop_call h rs) = None.
Proof.
  induction rs as [ | [k a] rest IH]; simpl.
  - reflexivity.
  - destruct (Pos.eqb k h) eqn:Hk; simpl.
    + exact IH.
    + rewrite Hk. exact IH.
Qed.

(** C1, as stated, fails: when [data.value] is the empty string and
    [markdown] holds the result, the empty string is displayed; the empty
    field is not passed over. *)
Lemma empty_value_is_displayed :
  useEffect_poll tracking 1%positive = Some first_session
  /\ markdown (ui (step (JsonSettles 1%positive
                     (inr (result_payload "COMPLETED" (Some "") (Some "# Result"))))
                   reading_first_poll))
     = ""
  /\ first_nonempty (candidates (result_payload "COMPLETED" (Some "") (Some "# Result")))
     = "# Result".
Proof. split; [reflexivity | split; reflexivity]. Qed.

(** C1, amended.  When the body of an answered poll is read as [payload],
    the session has not been torn down and [payload.status] in lower case is
    ["completed"]: the status and the raw response become [payload], the
    markdown becomes the first field that is present among [data.value],
    [markdown], [html], [text] (a field holding the empty string counts as
    present and is displayed), or the empty string when none is present;
    nothing else of the state changes, the call of [poll] ends, and no
    further poll is scheduled or sent. *)
Theorem poll_completed (s : Session) (h : positive) (payload : Payload.PdfJobStatus) :
  stage_of h (running s) = Some AwaitJson ->
  ignore s = false ->
  option_map toLowerCase (Payload.status payload) = Some "completed" ->
  ui (step (JsonSettles h (inr payload)) s) =
    {| isSubmitting := isSubmitting (ui s); status := Some payload;
       jobId := jobId (ui s); error := error (ui s);
       markdown := first_present (candidates payload);
       rawResponse := Some (RawStatus payload) |}
  /\ pending (step (JsonSettles h (inr payload)) s) = pending s
  /\ requests (step (JsonSettles h (inr payload)) s) = requests s
  /\ stage_of h (running (step (JsonSettles h (inr payload)) s)) = None.
Proof.
  intros Hstage Hignore Hcompleted.
  unfold step. rewrite Hstage. unfold poll_payload.
  cbn [ignore set_running]. rewrite Hignore, Hcompleted.
  cbn [opt_string_eqb]. rewrite String.eqb_refl.
  rewrite derivedMarkdown_first_present.
  cbn. split; [reflexivity | split; [reflexivity | split; [reflexivity | ]]].
  apply stage_of_drop_call.
Qed.

Lemma poll_completed_witness :
  markdown (ui (step (JsonSettles 1%positive
                  (inr (result_payload "completed" (Some "# Result") None)))
                reading_first_poll))
  = "# Result".
Proof.
  rewrite (proj1 (poll_completed reading_first_poll 1%positive
                    (result_payload "completed" (Some "# Result") None)
                    eq_refl eq_refl eq_refl)).
  reflexivity.
Defined.

(** ** C2: teardown of a polling session *)

Lemma poll_catch_frame (err : thrown) (s : Session) :
  pending (poll_catch err s) = pending s
  /\ running (poll_catch err s) = running s
  /\ timer (poll_catch err s) = timer s
  /\ ignore (poll_catch err s) = ignore s
  /\ requests (poll_catch err s) = requests s
  /\ (ignore s = true -> ui (poll_catch err s) = ui s).
Proof.
  unfold poll_catch. destruct (ignore s) eqn:Hi; simpl; repeat split; try reflexivity.
  - exact Hi.
  - exact Hi.
  - discriminate.
Qed.

Lemma poll_payload_ignored (payload : Payload.PdfJobStatus) (s : Session) :
  ignore s = true -> poll_payload payload s = s.
Proof. intros Hi. unfold poll_payload. rewrite Hi. reflexivity. Qed.

(** [poll_payload] either only writes the React state or, besides,
    schedules the next poll. *)
Lemma poll_payload_shape (payload : Payload.PdfJobStatus) (s : Session) :
  (pending (poll_payload payload s) = pending s
   /\ timer (poll_payload payload s) = timer s
   /\ running (poll_payload payload s) = running s)
  \/ (pending (poll_payload payload s) = (pending s ++ [(fresh s, POLL_INTERVAL_MS)])%list
      /\ timer (poll_payload payload s) = Some (fresh s)
      /\ running (poll_payload payload s) = running s).
Proof.
  unfold poll_payload.
  destruct (ignore s); [left; repeat split | ].
  destruct (opt_string_eqb (option_map toLowerCase (Payload.status payload)) "completed");
    [left; repeat split | ].
  destruct (opt_string_eqb (option_map toLowerCase (Payload.status payload)) "error"
            || opt_string_eqb (option_map toLowerCase (Payload.status payload)) "failed");
    [left; repeat split | right; repeat split].
Qed.

Lemma serial_step (ev : Event) (s : Session) : serial s -> serial (step ev s).
Proof.
  intros Hs. destruct ev as [h | h r | h r | ].
  - (* the timeout fires *)
    unfold step. destruct (is_pending h s) eqn:Hp; [ | exact Hs].
    unfold serial, is_pending in *. simpl.
    destruct (pending s) as [ | [h0 d0] [ | p2 rest]];
      destruct (running s) as [ | r1 [ | r2 more]]; simpl in *;
      try contradiction; try discriminate.
    rewrite orb_false_r in Hp. rewrite Hp. simpl. exact I.
  - (* [fetch] settles *)
    unfold step. destruct (stage_of h (running s)) as [[ | ] | ] eqn:Hstage; try exact Hs.
    assert (Hshape : pending s = [] /\ exists r1, running s = [r1]).
    { unfold serial in Hs.
      destruct (pending s) as [ | [h0 d0] [ | p2 rest]];
        destruct (running s) as [ | r1 [ | r2 more]]; simpl in *;
        try contradiction; try discriminate; eauto. }
    destruct Hshape as [Hpend [[k a] Hrun]].
    assert (Hk : Pos.eqb k h = true).
    { rewrite Hrun in Hstage. simpl in Hstage.
      destruct (Pos.eqb k h); [reflexivity | discriminate]. }
    destruct r as [err | response]; [ | destruct (negb (ok response))].
    + destruct (poll_catch_frame err (set_running (drop_call h (running s)) s))
        as [Hp [Hr [Ht _]]].
      unfold serial. rewrite Hp, Hr. simpl. rewrite Hpend, Hrun. simpl. rewrite Hk.
      simpl. exact I.
    + destruct (poll_catch_frame
                  (ErrorObj ("Polling failed: " ++ string_of_Z (http_status response)))
                  (set_running (drop_call h (running s)) s))
        as [Hp [Hr [Ht _]]].
      unfold serial. rewrite Hp, Hr. simpl. rewrite Hpend, Hrun. simpl. rewrite Hk.
      simpl. exact I.
    + unfold serial. simpl. rewrite Hpend, Hrun. simpl. exact I.
  - (* [response.json()] settles *)
    unfold step. destruct (stage_of h (running s)) as [[ | ] | ] eqn:Hstage; try exact Hs.
    assert (Hshape : pending s = [] /\ exists r1, running s = [r1]).
    { unfold serial in Hs.
      destruct (pending s) as [ | [h0 d0] [ | p2 rest]];
        destruct (running s) as [ | r1 [ | r2 more]]; simpl in *;
        try contradiction; try discriminate; eauto. }
    destruct Hshape as [Hpend [[k a] Hrun]].
    assert (Hk : Pos.eqb k h = true).
    { rewrite Hrun in Hstage. simpl in Hstage.
      destruct (Pos.eqb k h); [reflexivity | discriminate]. }
    destruct r as [err | payload].
    + destruct (poll_catch_frame err (set_running (drop_call h (running s)) s))
        as [Hp [Hr [Ht _]]].
      unfold serial. rewrite Hp, Hr. simpl. rewrite Hpend, Hrun. simpl. rewrite Hk.
      simpl. exact I.
    + destruct (poll_payload_shape payload (set_running (drop_call h (running s)) s))
        as [[Hp [Ht Hr]] | [Hp [Ht Hr]]];
        unfold serial; rewrite Hp, Hr, Ht; simpl; rewrite Hpend, Hrun; simpl; rewrite Hk;
        simpl; [exact I | reflexivity].
  - (* cleanup *)
    unfold step, serial in *. simpl.
    destruct (pending s) as [ | [h0 d0] [ | p2 rest]] eqn:Hpend;
      destruct (running s) as [ | r1 [ | r2 more]] eqn:Hrun; simpl in *;
      try contradiction.
    + destruct (timer s); simpl; rewrite ?Hpend, ?Hrun; simpl; exact I.
    + destruct (timer s); simpl; rewrite ?Hpend, ?Hrun; simpl; exact I.
    + rewrite Hs. simpl. rewrite ?Hpend, ?Hrun. simpl. rewrite Pos.eqb_refl. simpl. exact I.
Qed.

Lemma serial_start (st : State) (handle : positive) (s0 : Session) :
  useEffect_poll st handle = Some s0 -> serial s0.
Proof.
  unfold useEffect_poll. destruct (negb (truthy (jobId st))); [discriminate | ].
  intros Heq. inversion Heq. reflexivity.
Qed.

Lemma serial_play (acts : list Action) (s : Session) : serial s -> serial (play acts s).
Proof.
  revert s. induction acts as [ | a rest IH]; intros s Hs; simpl.
  - exact Hs.
  - apply IH. destruct a as [ev | write]; simpl.
    + apply serial_step. exact Hs.
    + exact Hs.
Qed.

Lemma cleanup_tears_down (s : Session) :
  serial s ->
  torn_down (step Cleanup s)
  /\ ui (step Cleanup s) = ui s
  /\ requests (step Cleanup s) = requests s.
Proof.
  intros Hs. unfold torn_down, step, serial in *.
  destruct (pending s) as [ | [h0 d0] [ | p2 rest]] eqn:Hpend;
    destruct (running s) as [ | r1 [ | r2 more]] eqn:Hrun; simpl in *;
    try contradiction.
  - destruct (timer s); simpl; rewrite ?Hpend; repeat split; reflexivity.
  - destruct (timer s); simpl; rewrite ?Hpend; repeat split; reflexivity.
  - rewrite Hs. simpl. rewrite ?Hpend. simpl. rewrite Pos.eqb_refl. simpl.
    repeat split; reflexivity.
Qed.

(** Once torn down, no event of the session writes the React state,
    schedules a timeout or sends a request. *)
Lemma torn_down_step (ev : Event) (s : Session) :
  torn_down s ->
  torn_down (step ev s)
  /\ ui (step ev s) = ui s
  /\ requests (step ev s) = requests s.
Proof.
  intros [Hi Hp]. unfold torn_down. destruct ev as [h | h r | h r | ].
  - unfold step, is_pending. rewrite Hp. simpl. auto.
  - unfold step. destruct (stage_of h (running s)) as [[ | ] | ]; auto.
    destruct r as [err | response]; [ | destruct (negb (ok response))].
    + destruct (poll_catch_frame err (set_running (drop_call h (running s)) s))
        as [Hp' [_ [_ [Hi' [Hq' Hu']]]]].
      rewrite Hp', Hi', Hq', (Hu' Hi). auto.
    + destruct (poll_catch_frame
                  (ErrorObj ("Polling failed: " ++ string_of_Z (http_status response)))
                  (set_running (drop_call h (running s)) s))
        as [Hp' [_ [_ [Hi' [Hq' Hu']]]]].
      rewrite Hp', Hi', Hq', (Hu' Hi). auto.
    + simpl. auto.
  - unfold step. destruct (stage_of h (running s)) as [[ | ] | ]; auto.
    destruct r as [err | payload].
    + destruct (poll_catch_frame err (set_running (drop_call h (running s)) s))
        as [Hp' [_ [_ [Hi' [Hq' Hu']]]]].
      rewrite Hp', Hi', Hq', (Hu' Hi). auto.
    + rewrite (poll_payload_ignored payload (set_running (drop_call h (running s)) s) Hi).
      simpl. auto.
  - unfold step. simpl. destruct (timer s); simpl; rewrite ?Hp; auto.
Qed.

Lemma torn_down_play (acts : list Action) (s : Session) :
  torn_down s ->
  torn_down (play acts s)
  /\ ui (play acts s) = others acts (ui s)
  /\ requests (play acts s) = requests s.
Proof.
  revert s. induction acts as [ | a rest IH]; intros s Hs; simpl.
  - auto.
  - destruct a as [ev | write]; simpl.
    + destruct (torn_down_step ev s Hs) as [Hs' [Hu Hq]].
      destruct (IH (step ev s) Hs') as [Ht [Hu' Hq']].
      rewrite Hu', Hq', Hu, Hq. auto.
    + assert (Hs' : torn_down (with_ui write s)) by exact Hs.
      destruct (IH (with_ui write s) Hs') as [Ht [Hu' Hq']].
      rewrite Hu', Hq'. auto.
Qed.

(** C2.  Take the session the effect starts for a job id, let it run for
    any number of events (timeouts firing, requests and bodies settling,
    other writers of the state in between), and then run its cleanup.  At
    once no timeout of the session is scheduled any more, and the cleanup
    itself leaves the React state alone.  From then on, whatever arrives
    (the answer to a poll that was in flight, its body, a failure), the
    session writes nothing: status, markdown, error and raw response are
    what the other writers alone made of them, no timeout is scheduled
    again and no further status request is sent. *)
Theorem teardown_silences_session (st : State) (handle : positive) (s0 : Session)
    (before after : list Action) :
  useEffect_poll st handle = Some s0 ->
  pending (step Cleanup (play before s0)) = []
  /\ ignore (step Cleanup (play before s0)) = true
  /\ ui (step Cleanup (play before s0)) = ui (play before s0)
  /\ ui (play after (step Cleanup (play before s0)))
     = others after (ui (play before s0))
  /\ pending (play after (step Cleanup (play before s0))) = []
  /\ requests (play after (step Cleanup (play before s0))) = requests (play before s0).
Proof.
  intros Hstart.
  pose proof (serial_play before s0 (serial_start st handle s0 Hstart)) as Hserial.
  destruct (cleanup_tears_down (play before s0) Hserial) as [Hdown [Hui Hreq]].
  destruct (torn_down_play after (step Cleanup (play before s0)) Hdown)
    as [Hdown' [Hui' Hreq']].
  destruct Hdown as [Hignore Hpending]. destruct Hdown' as [_ Hpending'].
  rewrite Hui', Hreq', Hui, Hreq. auto 7.
Qed.

(** The same late answer with and without the teardown: a poll is in
    flight when the job id is dropped; its completed body arrives
    afterwards. *)
Lemma teardown_silences_session_witness :
  markdown (ui (play [Own (JsonSettles 1%positive
                       (inr (result_payload "completed" (Some "# Result") None)))]
                  (step Cleanup
                     (play [Own (TimerFires 1%positive);
                            Own (FetchSettles 1%positive (inr {| ok := true; http_status := 200 |}))]
                           first_session))))
  = ""
  /\ markdown (ui (play [Own (JsonSettles 1%positive
                          (inr (result_payload "completed" (Some "# Result") None)))]
                     (play [Own (TimerFires 1%positive);
                            Own (FetchSettles 1%positive (inr {| ok := true; http_status := 200 |}))]
                           first_session)))
     = "# Result".
Proof.
  split; [ | reflexivity].
  destruct (teardown_silences_session tracking 1%positive first_session
              [Own (TimerFires 1%positive);
               Own (FetchSettles 1%positive (inr {| ok := true; http_status := 200 |}))]
              [Own (JsonSettles 1%positive
                      (inr (result_payload "completed" (Some "# Result") None)))]
              eq_refl) as [_ [_ [_ [Hui _]]]].
  rewrite Hui. reflexivity.
Defined.


End PageProperties.

(** * Further properties of the proxy route *)

Section RouteBeyond.

Import Route.

Lemma NextResponse_json_result (h : Host) (body : json) (init : option Z)
    (log log' : list Outbound) (response : NextResponse) :
  NextResponse_json h body init log = (inr response, log') ->
  carries_body (status response) = true
  /\ payload response = stringified body
  /\ log' = log.
Proof.
  unfold NextResponse_json, carries_body, throw, ret.
  destruct ((nullish init 200 <? 200) || (599 <? nullish init 200)) eqn:Hrange;
    [discriminate | ].
  destruct (null_body_status (nullish init 200)) eqn:Hnull; [discriminate | ].
  intros Heq. inversion Heq; subst. simpl.
  apply orb_false_elim in Hrange. destruct Hrange as [Hlo Hhi].
  apply Z.ltb_ge in Hlo. apply Z.ltb_ge in Hhi.
  apply Z.leb_le in Hlo. apply Z.leb_le in Hhi.
  rewrite Hlo, Hhi, Hnull. auto.
Qed.

(** X1.  When an upload passes the checks, the credentials are configured
    and the upstream answers with a 2xx status, [POST] makes that one call
    and answers with status 200, whichever 2xx status the upstream used;
    the body is what [JSON.stringify] writes of the parsed upstream JSON
    (the value itself, unless it holds a number too large for a double,
    written [null], or a negative zero), the upstream text as a string when
    it is not JSON, and [{ success: true }] when it parses to [null]. *)
Theorem POST_success_is_200 (h : Host) (request : PostRequest)
    (fd : list (string * FormDataEntryValue)) (type : string) (bytes : list Byte.byte)
    (upstream : Upstream) (text : string) (log : list Outbound) :
  formData request = inr fd ->
  FormData_get "file" fd = Some (EntryFile type bytes) ->
  type = "" \/ type = "application/pdf" ->
  truthy (APP_ID h) = true -> truthy (APP_KEY h) = true ->
  network h (upload_call h bytes) = inr upstream ->
  up_text upstream = inr text ->
  ok upstream = true ->
  POST h request log =
  (inr {| status := 200;
          payload := match JSON_parse h text with
                     | Some JNull => JObj [("success", JBool true)]
                     | Some v => stringified v
                     | None => JStr text
                     end |},
   (log ++ [upload_call h bytes])%list)
  /\ (forall v, JSON_parse h text = Some v -> written_as_is v = true -> stringified v = v).
Proof.
  intros Hfd Hget Htype Hid Hkey Hnet Htext Hok.
  split; [ | intros v _ Hv; apply stringified_as_is; exact Hv].
  unfold POST, try_catch, POST_try, bind, await. rewrite Hfd, Hget.
  assert (Hcheck : truthy_string type && negb (String.eqb type "application/pdf") = false).
  { destruct Htype as [Htype | Htype]; subst type; reflexivity. }
  rewrite Hcheck.
  unfold forwardToMathpix, bind. rewrite (credentials_present h log Hid Hkey).
  unfold fetch, await, ret. fold (upload_call h bytes).
  rewrite Hnet, Htext, Hok. cbn [negb]. cbv beta iota.
  rewrite json_nullish_relayed. unfold relayed, NextResponse_json, ret. simpl.
  destruct (JSON_parse h text) as [[ | b | x | str | items | fields] | ]; reflexivity.
Qed.

Lemma POST_success_is_200_witness :
  POST (Reference.host (Some "id") (Some "key")
          (Reference.answers 202 ("{" ++ Reference.quoted "pdf_id" ++ ":"
                                      ++ Reference.quoted "2024_05" ++ "}")))
       {| formData := inr [("file", EntryFile "application/pdf" [Byte.x25; Byte.x50])] |} []
  = (inr {| status := 200; payload := JObj [("pdf_id", JStr "2024_05")] |},
     [upload_call (Reference.host (Some "id") (Some "key") Reference.unreachable)
                  [Byte.x25; Byte.x50]]).
Proof.
  apply (proj1 (POST_success_is_200
           (Reference.host (Some "id") (Some "key")
              (Reference.answers 202 ("{" ++ Reference.quoted "pdf_id" ++ ":"
                                          ++ Reference.quoted "2024_05" ++ "}")))
           {| formData := inr [("file", EntryFile "application/pdf" [Byte.x25; Byte.x50])] |}
           [("file", EntryFile "application/pdf" [Byte.x25; Byte.x50])]
           "application/pdf" [Byte.x25; Byte.x50]
           {| up_status := 202;
              up_text := inr ("{" ++ Reference.quoted "pdf_id" ++ ":"
                                  ++ Reference.quoted "2024_05" ++ "}") |}
           ("{" ++ Reference.quoted "pdf_id" ++ ":" ++ Reference.quoted "2024_05" ++ "}")
           []
           eq_refl eq_refl (or_intror eq_refl) eq_refl eq_refl eq_refl eq_refl eq_refl)).
Defined.

(** X2.  When the credentials are configured, the request names a job and
    the upstream answers with a 2xx status, [GET] makes that one call, to
    the endpoint followed by the escaped job id, and answers with status
    200; the body is what [JSON.stringify] writes of the parsed upstream
    JSON (the value itself, unless it holds a number too large for a
    double, written [null], or a negative zero), the upstream text as a
    string when it is not JSON, and the empty object when it parses to
    [null]. *)
Theorem GET_success_is_200 (h : Host) (request : GetRequest) (jobId : string)
    (upstream : Upstream) (text : string) (log : list Outbound) :
  truthy (APP_ID h) = true -> truthy (APP_KEY h) = true ->
  searchParams_get "jobId" (searchParams request) = Some jobId ->
  jobId <> "" ->
  network h (status_call h jobId) = inr upstream ->
  up_text upstream = inr text ->
  ok upstream = true ->
  GET h request log =
  (inr {| status := 200;
          payload := match JSON_parse h text with
                     | Some JNull => JObj []
                     | Some v => stringified v
                     | None => JStr text
                     end |},
   (log ++ [status_call h jobId])%list)
  /\ (forall v, JSON_parse h text = Some v -> written_as_is v = true -> stringified v = v).
Proof.
  intros Hid Hkey Hjob Hnonempty Hnet Htext Hok.
  split; [ | intros v _ Hv; apply stringified_as_is; exact Hv].
  unfold GET, try_catch, GET_try, bind.
  rewrite (credentials_present h log Hid Hkey). rewrite Hjob.
  assert (Htruthy : truthy (Some jobId) = true).
  { destruct jobId; [contradiction Hnonempty; reflexivity | reflexivity]. }
  rewrite Htruthy. unfold fetch, await.
  change (nullish (Some jobId) "") with jobId. fold (status_call h jobId).
  rewrite Hnet, Htext, Hok. cbn [negb]. cbv beta iota.
  rewrite json_nullish_relayed. unfold relayed, NextResponse_json, ret. simpl.
  destruct (JSON_parse h text) as [[ | b | x | str | items | fields] | ]; reflexivity.
Qed.

Lemma GET_success_is_200_witness :
  GET (Reference.host (Some "id") (Some "key") (Reference.answers 203 "[1e400, -0, 0.5]"))
      {| searchParams := [("jobId", "a/b")] |} []
  = (inr {| status := 200;
            payload := JArr [JNull; JNum (Finite 0); JNum (Finite (1 # 2))] |},
     [{| url := "https://api.mathpix.com/v3/pdf/a%2Fb"; method := "GET";
         headers := [("Accept", "application/json"); ("app_id", "id"); ("app_key", "key")];
         body := None |}]).
Proof.
  apply (proj1 (GET_success_is_200
           (Reference.host (Some "id") (Some "key")
              (Reference.answers 203 "[1e400, -0, 0.5]"))
           {| searchParams := [("jobId", "a/b")] |} "a/b"
           {| up_status := 203; up_text := inr "[1e400, -0, 0.5]" |} "[1e400, -0, 0.5]" []
           eq_refl eq_refl eq_refl ltac:(discriminate) eq_refl eq_refl eq_refl)).
Defined.

(** X3.  When a credential is missing (unset, or set to the empty string),
    every status request, and every upload that passes the file checks, is
    answered 500 with the credentials error, and no outbound call is
    made. *)
Theorem missing_credentials_stop_before_network (h : Host) (log : list Outbound) :
  truthy (APP_ID h) && truthy (APP_KEY h) = false ->
  (forall request : GetRequest,
      GET h request log = (inr {| status := 500; payload := missing_credentials |}, log))
  /\ (forall (request : PostRequest) fd type bytes,
         formData request = inr fd ->
         FormData_get "file" fd = Some (EntryFile type bytes) ->
         type = "" \/ type = "application/pdf" ->
         POST h request log = (inr {| status := 500; payload := missing_credentials |}, log)).
Proof.
  intros Hcred. split.
  - intros request. unfold GET, try_catch, GET_try, bind.
    rewrite (credentials_missing h log Hcred). reflexivity.
  - intros request fd type bytes Hfd Hget Htype.
    unfold POST, try_catch, POST_try, bind, await. rewrite Hfd, Hget.
    assert (Hcheck : truthy_string type && negb (String.eqb type "application/pdf") = false).
    { destruct Htype as [Htype | Htype]; subst type; reflexivity. }
    rewrite Hcheck. unfold forwardToMathpix, bind.
    rewrite (credentials_missing h log Hcred). reflexivity.
Qed.

Lemma missing_credentials_stop_before_network_witness :
  GET (Reference.host (Some "id") (Some "") (Reference.answers 200 "{}"))
      {| searchParams := [("jobId", "abc123")] |} []
  = (inr {| status := 500; payload := missing_credentials |}, [])
  /\ POST (Reference.host (Some "id") (Some "") (Reference.answers 200 "{}"))
          {| formData := inr [("file", EntryFile "application/pdf" [Byte.x25])] |} []
     = (inr {| status := 500; payload := missing_credentials |}, []).
Proof.
  destruct (missing_credentials_stop_before_network
              (Reference.host (Some "id") (Some "") (Reference.answers 200 "{}")) []
              eq_refl) as [Hget Hpost].
  split.
  - apply Hget.
  - apply (Hpost {| formData := inr [("file", EntryFile "application/pdf" [Byte.x25])] |}
                 [("file", EntryFile "application/pdf" [Byte.x25])]
                 "application/pdf" [Byte.x25] eq_refl eq_refl).
    right. reflexivity.
Defined.

Lemma NextResponse_json_log (h : Host) (body : json) (init : option Z) (log : list Outbound) :
  snd (NextResponse_json h body init log) = log.
Proof.
  unfold NextResponse_json, throw, ret.
  destruct ((nullish init 200 <? 200) || (599 <? nullish init 200)); [reflexivity | ].
  destruct (null_body_status (nullish init 200)); reflexivity.
Qed.

Lemma answered_log (r : (thrown + NextResponse) * list Outbound) :
  snd (answered r) = snd r.
Proof. destruct r as [[e | response] log]; reflexivity. Qed.

(** X4.  Whatever the host and the request, a handler makes at most one
    outbound call.  [POST] either calls nothing or sends exactly the bytes
    of the file found under ["file"] to the Mathpix endpoint, with the two
    credentials as headers; [GET] either calls nothing or asks the endpoint
    once for the escaped [jobId] of the query. *)
Theorem handlers_call_upstream_at_most_once (h : Host) (log : list Outbound) :
  (forall request : PostRequest,
      snd (POST h request log) = log
      \/ exists fd type bytes,
           formData request = inr fd
           /\ FormData_get "file" fd = Some (EntryFile type bytes)
           /\ snd (POST h request log) = (log ++ [upload_call h bytes])%list)
  /\ (forall request : GetRequest,
         snd (GET h request log) = log
         \/ exists jobId,
              searchParams_get "jobId" (searchParams request) = Some jobId
              /\ snd (GET h request log) = (log ++ [status_call h jobId])%list).
Proof.
  split; intros request.
  - unfold POST. rewrite try_catch_on_error, answered_log.
    unfold POST_try, bind, await.
    destruct (formData request) as [e | fd] eqn:Hfd; [left; reflexivity | ].
    destruct (FormData_get "file" fd) as [[s | type bytes] | ] eqn:Hget;
      [left; reflexivity | | left; reflexivity].
    destruct (truthy_string type && negb (String.eqb type "application/pdf"));
      [left; reflexivity | ].
    unfold forwardToMathpix, bind.
    destruct (truthy (APP_ID h) && truthy (APP_KEY h)) eqn:Hcred.
    + apply andb_prop in Hcred. destruct Hcred as [Hid Hkey].
      rewrite (credentials_present h log Hid Hkey).
      right. exists fd, type, bytes.
      split; [first [reflexivity | exact Hfd] | split; [first [reflexivity | exact Hget] | ]].
      unfold fetch, await, ret. fold (upload_call h bytes).
      destruct (network h (upload_call h bytes)) as [e | upstream]; [reflexivity | ].
      destruct (up_text upstream) as [e | text]; [reflexivity | ].
      destruct (negb (ok upstream)); apply NextResponse_json_log.
    + rewrite (credentials_missing h log Hcred). left. reflexivity.
  - unfold GET. rewrite try_catch_on_error, answered_log.
    unfold GET_try, bind.
    destruct (truthy (APP_ID h) && truthy (APP_KEY h)) eqn:Hcred.
    + apply andb_prop in Hcred. destruct Hcred as [Hid Hkey].
      rewrite (credentials_present h log Hid Hkey).
      destruct (searchParams_get "jobId" (searchParams request)) as [jobId | ] eqn:Hjob;
        [ | left; reflexivity].
      destruct (negb (truthy (Some jobId))); [left; reflexivity | ].
      right. exists jobId. split; [first [reflexivity | exact Hjob] | ].
      unfold fetch, await. change (nullish (Some jobId) "") with jobId.
      fold (status_call h jobId).
      destruct (network h (status_call h jobId)) as [e | upstream]; [reflexivity | ].
      destruct (up_text upstream) as [e | text]; [reflexivity | ].
      destruct (negb (ok upstream)); apply NextResponse_json_log.
    + rewrite (credentials_missing h log Hcred). left. reflexivity.
Qed.

Lemma relayed_null (h : Host) (text : string) (fields : list (string * json)) :
  stringified (json_nullish (parse_or_text h text) (JObj fields)) = JNull ->
  exists negative, JSON_parse h text = Some (JNum (Infinite negative)).
Proof.
  unfold parse_or_text.
  destruct (JSON_parse h text) as [[ | b | [q | | negative] | str | items | fields'] | ];
    simpl; try discriminate.
  intros _. exists negative. reflexivity.
Qed.

Ltac response_leaf H :=
  apply NextResponse_json_result in H;
  let Hs := fresh "Hs" in
  let Hp := fresh "Hp" in
  destruct H as [Hs [Hp _]];
  split; [exact Hs | rewrite Hp; clear Hp].

Lemma POST_try_response (h : Host) (request : PostRequest) (log log' : list Outbound)
    (response : NextResponse) :
  POST_try h request log = (inr response, log') ->
  carries_body (status response) = true
  /\ (payload response = JNull ->
      exists call upstream text negative,
        network h call = inr upstream
        /\ up_text upstream = inr text
        /\ JSON_parse h text = Some (JNum (Infinite negative))).
Proof.
  unfold POST_try, bind, await.
  destruct (formData request) as [e | fd]; [discriminate | ].
  destruct (FormData_get "file" fd) as [[s | type bytes] | ];
    [intros H; response_leaf H; discriminate | | intros H; response_leaf H; discriminate].
  destruct (truthy_string type && negb (String.eqb type "application/pdf"));
    [intros H; response_leaf H; discriminate | ].
  unfold forwardToMathpix, bind, getCredentialHeader, throw, ret.
  destruct (negb (truthy (APP_ID h)) || negb (truthy (APP_KEY h))); [discriminate | ].
  unfold fetch, await.
  match goal with
  | |- context [network h ?c] => destruct (network h c) as [e | upstream] eqn:Hnet
  end; [discriminate | ].
  destruct (up_text upstream) as [e | text] eqn:Htext; [discriminate | ].
  destruct (negb (ok upstream)); intros H; response_leaf H;
    intros Hnull; destruct (relayed_null h text _ Hnull) as [negative Hparse];
    eexists; exists upstream, text, negative;
    (split; [exact Hnet | split; [exact Htext | exact Hparse]]).
Qed.

Lemma GET_try_response (h : Host) (request : GetRequest) (log log' : list Outbound)
    (response : NextResponse) :
  GET_try h request log = (inr response, log') ->
  carries_body (status response) = true
  /\ (payload response = JNull ->
      exists call upstream text negative,
        network h call = inr upstream
        /\ up_text upstream = inr text
        /\ JSON_parse h text = Some (JNum (Infinite negative))).
Proof.
  unfold GET_try, bind, getCredentialHeader, throw, ret.
  destruct (negb (truthy (APP_ID h)) || negb (truthy (APP_KEY h))); [discriminate | ].
  destruct (negb (truthy (searchParams_get "jobId" (searchParams request))));
    [intros H; response_leaf H; discriminate | ].
  unfold fetch, await.
  match goal with
  | |- context [network h ?c] => destruct (network h c) as [e | upstream] eqn:Hnet
  end; [discriminate | ].
  destruct (up_text upstream) as [e | text] eqn:Htext; [discriminate | ].
  destruct (negb (ok upstream)); intros H; response_leaf H;
    intros Hnull; destruct (relayed_null h text _ Hnull) as [negative Hparse];
    eexists; exists upstream, text, negative;
    (split; [exact Hnet | split; [exact Htext | exact Hparse]]).
Qed.

(** X5.  Whatever the host and the request, the response of a handler has
    a status between 200 and 599 that may carry a body.  Its body is the
    JSON value [null] only when the upstream answered with a body that
    parses to a number too large for a double, which [JSON.stringify]
    writes as [null]; an upstream body that parses to [null] itself is
    replaced by an object, and the errors of the handler are objects. *)
Theorem responses_have_a_status_and_a_body (h : Host) (log : list Outbound) :
  (forall request : PostRequest,
      exists response log',
        POST h request log = (inr response, log')
        /\ carries_body (status response) = true
        /\ (payload response = JNull ->
            exists call upstream text negative,
              network h call = inr upstream
              /\ up_text upstream = inr text
              /\ JSON_parse h text = Some (JNum (Infinite negative))))
  /\ (forall request : GetRequest,
         exists response log',
           GET h request log = (inr response, log')
           /\ carries_body (status response) = true
           /\ (payload response = JNull ->
               exists call upstream text negative,
                 network h call = inr upstream
                 /\ up_text upstream = inr text
                 /\ JSON_parse h text = Some (JNum (Infinite negative)))).
Proof.
  split; intros request.
  - unfold POST. rewrite try_catch_on_error.
    destruct (POST_try h request log) as [[e | response] log'] eqn:Htry; simpl.
    + eexists. eexists. split; [reflexivity | split; [reflexivity | discriminate]].
    + destruct (POST_try_response h request log log' response Htry) as [Hs Hp].
      eexists. eexists. split; [reflexivity | split; assumption].
  - unfold GET. rewrite try_catch_on_error.
    destruct (GET_try h request log) as [[e | response] log'] eqn:Htry; simpl.
    + eexists. eexists. split; [reflexivity | split; [reflexivity | discriminate]].
    + destruct (GET_try_response h request log log' response Htry) as [Hs Hp].
      eexists. eexists. split; [reflexivity | split; assumption].
Qed.

(** A body too large for a double comes back as [null]. *)
Example GET_overflowing_number :
  GET (Reference.host (Some "id") (Some "key") (Reference.answers 200 "1e400"))
      {| searchParams := [("jobId", "abc123")] |} []
  = (inr {| status := 200; payload := JNull |},
     [status_call (Reference.host (Some "id") (Some "key") (Reference.answers 200 "1e400"))
                  "abc123"]).
Proof. vm_compute. reflexivity. Qed.

(** X6.  With the credentials configured, a status request whose [jobId]
    is present but empty ([?jobId=]) is answered like one without [jobId]:
    400 with the "jobId is required" error and no outbound call. *)
Theorem GET_empty_jobId_400 (h : Host) (request : GetRequest) (log : list Outbound) :
  truthy (APP_ID h) = true -> truthy (APP_KEY h) = true ->
  searchParams_get "jobId" (searchParams request) = Some "" ->
  GET h request log =
  (inr {| status := 400; payload := error_body "jobId query parameter is required." |}, log).
Proof.
  intros Hid Hkey Hjob. unfold GET, try_catch, GET_try, bind.
  rewrite (credentials_present h log Hid Hkey). rewrite Hjob. reflexivity.
Qed.

Lemma GET_empty_jobId_400_witness :
  GET (Reference.host (Some "id") (Some "key") (Reference.answers 200 "{}"))
      {| searchParams := [("jobId", ""); ("jobId", "abc123")] |} []
  = (inr {| status := 400; payload := error_body "jobId query parameter is required." |}, []).
Proof.
  apply (GET_empty_jobId_400
           (Reference.host (Some "id") (Some "key") (Reference.answers 200 "{}"))
           {| searchParams := [("jobId", ""); ("jobId", "abc123")] |} []);
    reflexivity.
Defined.

(** X7.  With the credentials configured, when the call to the upstream
    fails (the [fetch] is rejected, or the body cannot be read), the
    handler answers 500 with the message of the failure as [error]
    ("Unexpected error" when what was thrown is not an [Error]); the one
    call it attempted is in the log. *)
Theorem upstream_unreachable_is_500 (h : Host) (log : list Outbound) (e : thrown) :
  truthy (APP_ID h) = true -> truthy (APP_KEY h) = true ->
  (forall (request : GetRequest) jobId,
      searchParams_get "jobId" (searchParams request) = Some jobId ->
      jobId <> "" ->
      (network h (status_call h jobId) = inl e
       \/ exists upstream, network h (status_call h jobId) = inr upstream
                           /\ up_text upstream = inl e) ->
      GET h request log =
      (inr {| status := 500; payload := error_body (catch_message e) |},
       (log ++ [status_call h jobId])%list))
  /\ (forall (request : PostRequest) fd type bytes,
         formData request = inr fd ->
         FormData_get "file" fd = Some (EntryFile type bytes) ->
         type = "" \/ type = "application/pdf" ->
         (network h (upload_call h bytes) = inl e
          \/ exists upstream, network h (upload_call h bytes) = inr upstream
                              /\ up_text upstream = inl e) ->
         POST h request log =
         (inr {| status := 500; payload := error_body (catch_message e) |},
          (log ++ [upload_call h bytes])%list)).
Proof.
  intros Hid Hkey. split.
  - intros request jobId Hjob Hnonempty Hfail.
    unfold GET. rewrite try_catch_on_error. unfold GET_try, bind.
    rewrite (credentials_present h log Hid Hkey). rewrite Hjob.
    assert (Htruthy : truthy (Some jobId) = true).
    { destruct jobId; [contradiction Hnonempty; reflexivity | reflexivity]. }
    rewrite Htruthy. unfold fetch, await.
    change (nullish (Some jobId) "") with jobId. fold (status_call h jobId).
    destruct Hfail as [Hnet | [upstream [Hnet Htext]]]; rewrite Hnet.
    + reflexivity.
    + rewrite Htext. reflexivity.
  - intros request fd type bytes Hfd Hget Htype Hfail.
    unfold POST. rewrite try_catch_on_error. unfold POST_try, bind, await.
    rewrite Hfd, Hget.
    assert (Hcheck : truthy_string type && negb (String.eqb type "application/pdf") = false).
    { destruct Htype as [Htype | Htype]; subst type; reflexivity. }
    rewrite Hcheck. unfold forwardToMathpix, bind.
    rewrite (credentials_present h log Hid Hkey).
    unfold fetch, await. fold (upload_call h bytes).
    destruct Hfail as [Hnet | [upstream [Hnet Htext]]]; rewrite Hnet.
    + reflexivity.
    + rewrite Htext. reflexivity.
Qed.

Lemma upstream_unreachable_is_500_witness :
  GET (Reference.host (Some "id") (Some "key") Reference.unreachable)
      {| searchParams := [("jobId", "abc123")] |} []
  = (inr {| status := 500; payload := error_body "fetch failed" |},
     [status_call (Reference.host (Some "id") (Some "key") Reference.unreachable) "abc123"]).
Proof.
  apply (proj1 (upstream_unreachable_is_500
                  (Reference.host (Some "id") (Some "key") Reference.unreachable) []
                  (ErrorObj "fetch failed") eq_refl eq_refl)
               {| searchParams := [("jobId", "abc123")] |} "abc123" eq_refl).
  - discriminate.
  - left. reflexivity.
Defined.



End RouteBeyond.

(** * Further properties of the page component *)

Section PageBeyond.

Import Page.Payload.
Import Page.

(** X9.  A form submission sends the upload exactly when a file is chosen
    and the first chosen file declares [application/pdf].  When it sends
    nothing, only an error message is written: the job on screen, its
    status and its markdown stay.  When it sends the upload, the previous
    job is dropped first: the state is reset, with no job id, and the form
    is marked as submitting. *)
Theorem handleSubmit_begin_validates (files : list File) (st : State) :
  (forall file,
      snd (handleSubmit_begin files st) = Some file
      <-> exists rest, files = file :: rest /\ file_type file = "application/pdf")
  /\ (snd (handleSubmit_begin files st) = None ->
        exists message,
          fst (handleSubmit_begin files st) = setError (Some message) st
          /\ message <> "")
  /\ (snd (handleSubmit_begin files st) <> None ->
        fst (handleSubmit_begin files st) =
        {| isSubmitting := true; status := None; jobId := None; error := None;
           markdown := ""; rawResponse := None |}).
Proof.
  unfold handleSubmit_begin.
  destruct files as [ | f rest].
  - simpl. split; [ | split].
    + intros file. split; [discriminate | intros [rest' [Hnil _]]; discriminate Hnil].
    + intros _. eexists. split; [reflexivity | discriminate].
    + intros Hsome. contradiction Hsome. reflexivity.
  - destruct (String.eqb (file_type f) "application/pdf") eqn:Htype; simpl.
    + apply String.eqb_eq in Htype. split; [ | split].
      * intros file. split.
        -- intros Hfile. inversion Hfile; subst file. exists rest. auto.
        -- intros [rest' [Hcons _]]. inversion Hcons. reflexivity.
      * discriminate.
      * intros _. reflexivity.
    + apply String.eqb_neq in Htype. split; [ | split].
      * intros file. split; [discriminate | ].
        intros [rest' [Hcons Hpdf]]. inversion Hcons; subst. contradiction.
      * intros _. eexists. split; [reflexivity | discriminate].
      * intros Hsome. contradiction Hsome. reflexivity.
Qed.

Lemma handleSubmit_begin_validates_witness :
  fst (handleSubmit_begin [pdf_file; {| file_type := "image/png"; file_bytes := [] |}] tracking)
  = {| isSubmitting := true; status := None; jobId := None; error := None;
       markdown := ""; rawResponse := None |}
  /\ exists message,
       fst (handleSubmit_begin [{| file_type := ""; file_bytes := [Byte.x25] |}; pdf_file]
                               tracking)
       = setError (Some message) tracking
       /\ message <> "".
Proof.
  split.
  - apply (proj2 (proj2 (handleSubmit_begin_validates
                           [pdf_file; {| file_type := "image/png"; file_bytes := [] |}]
                           tracking))).
    discriminate.
  - apply (proj1 (proj2 (handleSubmit_begin_validates
                           [{| file_type := ""; file_bytes := [Byte.x25] |}; pdf_file]
                           tracking))).
    reflexivity.
Defined.

(** X10.  An upload that does not succeed ends in an error and no job.
    When the proxy answers with a status that is not 2xx, the error shown
    is the text of its body, or "Upload failed" when the body is empty;
    when the request itself fails, or the body of a 2xx answer cannot be
    read as JSON, the error is the message of that failure.  In each case
    the form is released and the job id, status, markdown and raw response
    are left as they were. *)
Theorem handleSubmit_failure_shows_error (st : State) :
  (forall response text,
      upload_ok response = false -> upload_text response = inr text ->
      handleSubmit_settle (inr response) st =
      {| isSubmitting := false; status := status st; jobId := jobId st;
         error := Some (if String.eqb text "" then "Upload failed" else text);
         markdown := markdown st; rawResponse := rawResponse st |})
  /\ (forall e,
         handleSubmit_settle (inl e) st =
         {| isSubmitting := false; status := status st; jobId := jobId st;
            error := message_of e; markdown := markdown st;
            rawResponse := rawResponse st |})
  /\ (forall response e,
         upload_ok response = true -> upload_json response = inl e ->
         handleSubmit_settle (inr response) st =
         {| isSubmitting := false; status := status st; jobId := jobId st;
            error := message_of e; markdown := markdown st;
            rawResponse := rawResponse st |}).
Proof.
  split; [ | split].
  - intros response text Hok Htext.
    unfold handleSubmit_settle, handleSubmit_try. rewrite Hok, Htext.
    destruct text; reflexivity.
  - intros e. reflexivity.
  - intros response e Hok Hjson.
    unfold handleSubmit_settle, handleSubmit_try. rewrite Hok, Hjson. reflexivity.
Qed.

Lemma handleSubmit_failure_shows_error_witness :
  error (handleSubmit_settle
           (inr {| upload_ok := false; upload_text := inr "";
                   upload_json := inl (ErrorObj "Unexpected end of JSON input") |})
           (fst (handleSubmit_begin [pdf_file] idle)))
  = Some "Upload failed".
Proof.
  rewrite (proj1 (handleSubmit_failure_shows_error (fst (handleSubmit_begin [pdf_file] idle)))
             {| upload_ok := false; upload_text := inr "";
                upload_json := inl (ErrorObj "Unexpected end of JSON input") |}
             "" eq_refl eq_refl).
  reflexivity.
Defined.

(** X11.  However the upload settles, [handleSubmit] releases the form and
    leaves the markdown alone, and it does one of two things: it keeps the
    job id, status and raw response it found (a failure), or it sets a job
    id that is a non-empty string together with the payload as status and
    raw response, without touching the error (a success).  In particular
    it never stores an empty or missing job id next to a new status. *)
Theorem handleSubmit_settle_outcomes (r : thrown + UploadResponse) (st : State) :
  isSubmitting (handleSubmit_settle r st) = false
  /\ markdown (handleSubmit_settle r st) = markdown st
  /\ ((jobId (handleSubmit_settle r st) = jobId st
       /\ status (handleSubmit_settle r st) = status st
       /\ rawResponse (handleSubmit_settle r st) = rawResponse st)
      \/ (truthy (jobId (handleSubmit_settle r st)) = true
          /\ error (handleSubmit_settle r st) = error st
          /\ exists (response : UploadResponse) (payload : Payload.Upload),
               r = inr response
               /\ upload_ok response = true
               /\ upload_json response = inr payload
               /\ jobId (handleSubmit_settle r st) = newJobId payload
               /\ status (handleSubmit_settle r st) = Some (Payload.base payload)
               /\ rawResponse (handleSubmit_settle r st) = Some (RawUpload payload))).
Proof.
  unfold handleSubmit_settle, handleSubmit_try.
  destruct r as [e | [okay text parsed]]; simpl.
  - split; [reflexivity | split; [reflexivity | left; auto]].
  - destruct okay; simpl.
    + destruct parsed as [e | payload]; simpl.
      * split; [reflexivity | split; [reflexivity | left; auto]].
      * destruct (truthy (newJobId payload)) eqn:Hnew; simpl.
        -- split; [reflexivity | split; [reflexivity | right]].
           split; [exact Hnew | split; [reflexivity | ]].
           eexists. exists payload. repeat split; reflexivity.
        -- split; [reflexivity | split; [reflexivity | left; auto]].
    + destruct text as [e | text]; simpl;
        (split; [reflexivity | split; [reflexivity | left; auto]]).
Qed.

(** X12.  When the body of an answered poll is read as [payload], the
    session has not been torn down and [payload.status] in lower case is
    ["error"] or ["failed"]: the status and the raw response become
    [payload], the error becomes [payload.error] when that is a non-empty
    string and "Conversion failed. Check Mathpix dashboard for details."
    otherwise; the markdown is untouched, the call of [poll] ends and no
    further poll is scheduled or sent. *)
Theorem poll_failed (s : Session) (h : positive) (payload : Payload.PdfJobStatus) :
  stage_of h (running s) = Some AwaitJson ->
  ignore s = false ->
  option_map toLowerCase (Payload.status payload) = Some "error"
  \/ option_map toLowerCase (Payload.status payload) = Some "failed" ->
  ui (step (JsonSettles h (inr payload)) s) =
    {| isSubmitting := isSubmitting (ui s); status := Some payload;
       jobId := jobId (ui s);
       error := Some match Payload.error payload with
                     | Some (String c rest) => String c rest
                     | _ => "Conversion failed. Check Mathpix dashboard for details."
                     end;
       markdown := markdown (ui s);
       rawResponse := Some (RawStatus payload) |}
  /\ pending (step (JsonSettles h (inr payload)) s) = pending s
  /\ timer (step (JsonSettles h (inr payload)) s) = timer s
  /\ requests (step (JsonSettles h (inr payload)) s) = requests s
  /\ stage_of h (running (step (JsonSettles h (inr payload)) s)) = None.
Proof.
  intros Hstage Hignore Hfailed.
  unfold step. rewrite Hstage. unfold poll_payload.
  cbn [ignore set_running]. rewrite Hignore.
  assert (Hbranch :
            opt_string_eqb (option_map toLowerCase (Payload.status payload)) "completed"
            = false
            /\ opt_string_eqb (option_map toLowerCase (Payload.status payload)) "error"
               || opt_string_eqb (option_map toLowerCase (Payload.status payload)) "failed"
               = true).
  { destruct Hfailed as [Hs | Hs]; rewrite Hs; split; reflexivity. }
  destruct Hbranch as [Hnot Hyes]. rewrite Hnot, Hyes.
  cbn. split; [ | split; [reflexivity | split; [reflexivity | split; [reflexivity | ]]]].
  - destruct (Payload.error payload) as [[ | c rest] | ]; reflexivity.
  - apply stage_of_drop_call.
Qed.

Lemma poll_failed_witness :
  error (ui (step (JsonSettles 1%positive (inr (failure_payload "Failed" (Some "OCR timeout"))))
                  reading_first_poll))
  = Some "OCR timeout".
Proof.
  rewrite (proj1 (poll_failed reading_first_poll 1%positive
                    (failure_payload "Failed" (Some "OCR timeout"))
                    eq_refl eq_refl (or_intror eq_refl))).
  reflexivity.
Defined.

(** X13.  When the body of an answered poll is read as [payload], the
    session has not been torn down and [payload.status] is missing or, in
    lower case, none of ["completed"], ["error"], ["failed"]: the status
    and the raw response become [payload], error and markdown are
    untouched, the call of [poll] ends and the next poll is scheduled
    5000 ms later under a new handle, which [timer] now remembers. *)
Theorem poll_continues (s : Session) (h : positive) (payload : Payload.PdfJobStatus) :
  stage_of h (running s) = Some AwaitJson ->
  ignore s = false ->
  (forall t, option_map toLowerCase (Payload.status payload) = Some t ->
             t <> "completed" /\ t <> "error" /\ t <> "failed") ->
  ui (step (JsonSettles h (inr payload)) s) =
    {| isSubmitting := isSubmitting (ui s); status := Some payload;
       jobId := jobId (ui s); error := error (ui s); markdown := markdown (ui s);
       rawResponse := Some (RawStatus payload) |}
  /\ pending (step (JsonSettles h (inr payload)) s)
     = (pending s ++ [(fresh s, 5000)])%list
  /\ timer (step (JsonSettles h (inr payload)) s) = Some (fresh s)
  /\ fresh (step (JsonSettles h (inr payload)) s) = Pos.succ (fresh s)
  /\ requests (step (JsonSettles h (inr payload)) s) = requests s
  /\ stage_of h (running (step (JsonSettles h (inr payload)) s)) = None.
Proof.
  intros Hstage Hignore Hother.
  unfold step. rewrite Hstage. unfold poll_payload.
  cbn [ignore set_running]. rewrite Hignore.
  assert (Hbranch :
            opt_string_eqb (option_map toLowerCase (Payload.status payload)) "completed"
            = false
            /\ opt_string_eqb (option_map toLowerCase (Payload.status payload)) "error"
               || opt_string_eqb (option_map toLowerCase (Payload.status payload)) "failed"
               = false).
  { destruct (option_map toLowerCase (Payload.status payload)) as [t | ]; simpl.
    - destruct (Hother t eq_refl) as [Hc [He Hf]].
      apply String.eqb_neq in Hc. apply String.eqb_neq in He. apply String.eqb_neq in Hf.
      rewrite Hc, He, Hf. auto.
    - auto. }
  destruct Hbranch as [Hnot Hnor]. rewrite Hnot, Hnor.
  cbn. repeat (split; [reflexivity | ]).
  apply stage_of_drop_call.
Qed.

Lemma poll_continues_witness :
  pending (step (JsonSettles 1%positive (inr (processing 10 4))) reading_first_poll)
  = [(2%positive, 5000)]
  /\ progress (status (ui (step (JsonSettles 1%positive (inr (processing 10 4)))
                             reading_first_poll)))
     == 4 # 10.
Proof.
  destruct (poll_continues reading_first_poll 1%positive (processing 10 4)
              eq_refl eq_refl) as [Hui [Hpending _]].
  - intros t Ht. inversion Ht. repeat split; discriminate.
  - split.
    + rewrite Hpending. reflexivity.
    + rewrite Hui. reflexivity.
Defined.

(** X14.  A poll that fails in transport ends the polling: when the
    session has not been torn down and the status request is rejected, or
    is answered with a status that is not 2xx, or its body cannot be read
    as JSON, the error is set (to "Polling failed: " followed by the status
    code for a status that is not 2xx, to the message of the failure
    otherwise), nothing else of the state changes, the call of [poll] ends
    and no further poll is scheduled: there is no retry. *)
Theorem poll_transport_failure_stops (s : Session) (h : positive) :
  ignore s = false ->
  (stage_of h (running s) = Some AwaitFetch ->
     (forall response,
         ok response = false ->
         ui (step (FetchSettles h (inr response)) s)
         = setError (Some ("Polling failed: " ++ string_of_Z (http_status response))) (ui s)
         /\ pending (step (FetchSettles h (inr response)) s) = pending s
         /\ requests (step (FetchSettles h (inr response)) s) = requests s
         /\ stage_of h (running (step (FetchSettles h (inr response)) s)) = None)
     /\ (forall e,
            ui (step (FetchSettles h (inl e)) s) = setError (message_of e) (ui s)
            /\ pending (step (FetchSettles h (inl e)) s) = pending s
            /\ requests (step (FetchSettles h (inl e)) s) = requests s
            /\ stage_of h (running (step (FetchSettles h (inl e)) s)) = None))
  /\ (stage_of h (running s) = Some AwaitJson ->
        forall e,
          ui (step (JsonSettles h (inl e)) s) = setError (message_of e) (ui s)
          /\ pending (step (JsonSettles h (inl e)) s) = pending s
          /\ requests (step (JsonSettles h (inl e)) s) = requests s
          /\ stage_of h (running (step (JsonSettles h (inl e)) s)) = None).
Proof.
  intros Hignore. split.
  - intros Hstage. split.
    + intros response Hok. unfold step. rewrite Hstage, Hok. cbn [negb].
      unfold poll_catch. cbn [ignore set_running]. rewrite Hignore. cbn.
      repeat (split; [reflexivity | ]). apply stage_of_drop_call.
    + intros e. unfold step. rewrite Hstage.
      unfold poll_catch. cbn [ignore set_running]. rewrite Hignore. cbn.
      repeat (split; [reflexivity | ]). apply stage_of_drop_call.
  - intros Hstage e. unfold step. rewrite Hstage.
    unfold poll_catch. cbn [ignore set_running]. rewrite Hignore. cbn.
    repeat (split; [reflexivity | ]). apply stage_of_drop_call.
Qed.

Lemma poll_transport_failure_stops_witness :
  error (ui (step (FetchSettles 1%positive (inr {| ok := false; http_status := 502 |}))
                  (step (TimerFires 1%positive) first_session)))
  = Some "Polling failed: 502"
  /\ pending (step (FetchSettles 1%positive (inr {| ok := false; http_status := 502 |}))
                   (step (TimerFires 1%positive) first_session))
     = [].
Proof.
  destruct (proj1 (proj1 (poll_transport_failure_stops
                            (step (TimerFires 1%positive) first_session) 1%positive
                            eq_refl) eq_refl)
                  {| ok := false; http_status := 502 |} eq_refl)
    as [Hui [Hpending _]].
  split.
  - rewrite Hui. reflexivity.
  - rewrite Hpending. reflexivity.
Defined.

Lemma serial_shape (s : Session) :
  serial s ->
  (length (pending s) + length (running s) <= 1)%nat
  /\ (forall h d, In (h, d) (pending s) -> timer s = Some h).
Proof.
  unfold serial.
  destruct (pending s) as [ | [h0 d0] [ | p2 rest]];
    destruct (running s) as [ | r1 [ | r2 more]]; simpl; intros Hs;
    try contradiction; (split; [lia | ]); intros h d Hin; try contradiction.
  destruct Hin as [Heq | []]. inversion Heq; subst. exact Hs.
Qed.

Lemma fixed_interval_filter (f : positive * Z -> bool) (l : list (positive * Z)) :
  Forall (fun p => snd p = POLL_INTERVAL_MS) l ->
  Forall (fun p => snd p = POLL_INTERVAL_MS) (filter f l).
Proof.
  intros Hl. rewrite Forall_forall in *. intros p Hp.
  apply filter_In in Hp. apply Hl. tauto.
Qed.

Lemma fixed_interval_step (ev : Event) (s : Session) :
  fixed_interval s -> fixed_interval (step ev s).
Proof.
  unfold fixed_interval. intros Hs. destruct ev as [h | h r | h r | ].
  - unfold step. destruct (is_pending h s); [ | exact Hs].
    simpl. apply fixed_interval_filter. exact Hs.
  - unfold step. destruct (stage_of h (running s)) as [[ | ] | ]; try exact Hs.
    destruct r as [err | response]; [ | destruct (negb (ok response))].
    + destruct (poll_catch_frame err (set_running (drop_call h (running s)) s)) as [Hp _].
      rewrite Hp. exact Hs.
    + destruct (poll_catch_frame
                  (ErrorObj ("Polling failed: " ++ string_of_Z (http_status response)))
                  (set_running (drop_call h (running s)) s)) as [Hp _].
      rewrite Hp. exact Hs.
    + exact Hs.
  - unfold step. destruct (stage_of h (running s)) as [[ | ] | ]; try exact Hs.
    destruct r as [err | payload].
    + destruct (poll_catch_frame err (set_running (drop_call h (running s)) s)) as [Hp _].
      rewrite Hp. exact Hs.
    + destruct (poll_payload_shape payload (set_running (drop_call h (running s)) s))
        as [[Hp _] | [Hp _]]; rewrite Hp; simpl; [exact Hs | ].
      apply Forall_app. split; [exact Hs | ]. constructor; [reflexivity | constructor].
  - unfold step. simpl. destruct (timer s); simpl; [ | exact Hs].
    apply fixed_interval_filter. exact Hs.
Qed.

Lemma fixed_interval_play (acts : list Action) (s : Session) :
  fixed_interval s -> fixed_interval (play acts s).
Proof.
  revert s. induction acts as [ | a rest IH]; intros s Hs; simpl.
  - exact Hs.
  - apply IH. destruct a as [ev | write]; simpl.
    + apply fixed_interval_step. exact Hs.
    + exact Hs.
Qed.

(** X15.  Polls are serial.  In the session the effect starts, after any
    events and any writes by others, at most one poll is outstanding: the
    scheduled timeouts and the suspended calls of [poll] number at most one
    together; a scheduled timeout is the one [timer] remembers, and its
    delay is 5000 ms. *)
Theorem polls_never_overlap (st : State) (handle : positive) (s0 : Session)
    (acts : list Action) :
  useEffect_poll st handle = Some s0 ->
  (length (pending (play acts s0)) + length (running (play acts s0)) <= 1)%nat
  /\ (forall h d, In (h, d) (pending (play acts s0)) ->
                  timer (play acts s0) = Some h /\ d = 5000).
Proof.
  intros Hstart.
  pose proof (serial_play acts s0 (serial_start st handle s0 Hstart)) as Hserial.
  destruct (serial_shape _ Hserial) as [Hcount Htimer].
  assert (Hdelay : fixed_interval (play acts s0)).
  { apply fixed_interval_play. unfold useEffect_poll in Hstart.
    destruct (negb (truthy (jobId st))); [discriminate | ].
    inversion Hstart. unfold fixed_interval. simpl.
    constructor; [reflexivity | constructor]. }
  split; [exact Hcount | ].
  intros h d Hin. split; [exact (Htimer h d Hin) | ].
  unfold fixed_interval in Hdelay. rewrite Forall_forall in Hdelay.
  exact (Hdelay (h, d) Hin).
Qed.

Lemma polls_never_overlap_witness :
  (length (pending (play [Own (TimerFires 1%positive); Own (TimerFires 1%positive);
                          Own (FetchSettles 1%positive
                                 (inr {| ok := true; http_status := 200 |}));
                          Own (JsonSettles 1%positive (inr (processing 10 4)));
                          Own (TimerFires 2%positive)] first_session))
   + length (running (play [Own (TimerFires 1%positive); Own (TimerFires 1%positive);
                            Own (FetchSettles 1%positive
                                   (inr {| ok := true; http_status := 200 |}));
                            Own (JsonSettles 1%positive (inr (processing 10 4)));
                            Own (TimerFires 2%positive)] first_session))
   <= 1)%nat.
Proof.
  apply (proj1 (polls_never_overlap tracking 1%positive first_session
                  [Own (TimerFires 1%positive); Own (TimerFires 1%positive);
                   Own (FetchSettles 1%positive (inr {| ok := true; http_status := 200 |}));
                   Own (JsonSettles 1%positive (inr (processing 10 4)));
                   Own (TimerFires 2%positive)] eq_refl)).
Defined.

Lemma poll_catch_keeps_job (err : thrown) (s : Session) :
  jobId (ui (poll_catch err s)) = jobId (ui s)
  /\ isSubmitting (ui (poll_catch err s)) = isSubmitting (ui s)
  /\ tracked (poll_catch err s) = tracked s.
Proof. unfold poll_catch. destruct (negb (ignore s)); auto. Qed.

Lemma poll_payload_keeps_job (payload : Payload.PdfJobStatus) (s : Session) :
  jobId (ui (poll_payload payload s)) = jobId (ui s)
  /\ isSubmitting (ui (poll_payload payload s)) = isSubmitting (ui s)
  /\ tracked (poll_payload payload s) = tracked s
  /\ requests (poll_payload payload s) = requests s.
Proof.
  unfold poll_payload.
  destruct (ignore s); [auto | ].
  destruct (opt_string_eqb (option_map toLowerCase (Payload.status payload)) "completed");
    [simpl; auto | ].
  destruct (opt_string_eqb (option_map toLowerCase (Payload.status payload)) "error"
            || opt_string_eqb (option_map toLowerCase (Payload.status payload)) "failed");
    simpl; auto.
Qed.

(** What no event of a session changes, and what its requests are for. *)
Lemma step_keeps_job (ev : Event) (s : Session) :
  jobId (ui (step ev s)) = jobId (ui s)
  /\ isSubmitting (ui (step ev s)) = isSubmitting (ui s)
  /\ tracked (step ev s) = tracked s
  /\ (Forall (fun r => r = tracked s) (requests s) ->
      Forall (fun r => r = tracked s) (requests (step ev s))).
Proof.
  destruct ev as [h | h r | h r | ].
  - unfold step. destruct (is_pending h s); [ | auto]. simpl.
    repeat (split; [reflexivity | ]). intros Hreq.
    apply Forall_app. split; [exact Hreq | ]. constructor; [reflexivity | constructor].
  - unfold step. destruct (stage_of h (running s)) as [[ | ] | ]; auto.
    destruct r as [err | response]; [ | destruct (negb (ok response))].
    + destruct (poll_catch_keeps_job err (set_running (drop_call h (running s)) s))
        as [Hj [Hi Ht]].
      destruct (poll_catch_frame err (set_running (drop_call h (running s)) s))
        as [_ [_ [_ [_ [Hq _]]]]].
      rewrite Hj, Hi, Ht, Hq. auto.
    + destruct (poll_catch_keeps_job
                  (ErrorObj ("Polling failed: " ++ string_of_Z (http_status response)))
                  (set_running (drop_call h (running s)) s)) as [Hj [Hi Ht]].
      destruct (poll_catch_frame
                  (ErrorObj ("Polling failed: " ++ string_of_Z (http_status response)))
                  (set_running (drop_call h (running s)) s))
        as [_ [_ [_ [_ [Hq _]]]]].
      rewrite Hj, Hi, Ht, Hq. auto.
    + simpl. auto.
  - unfold step. destruct (stage_of h (running s)) as [[ | ] | ]; auto.
    destruct r as [err | payload].
    + destruct (poll_catch_keeps_job err (set_running (drop_call h (running s)) s))
        as [Hj [Hi Ht]].
      destruct (poll_catch_frame err (set_running (drop_call h (running s)) s))
        as [_ [_ [_ [_ [Hq _]]]]].
      rewrite Hj, Hi, Ht, Hq. auto.
    + destruct (poll_payload_keeps_job payload (set_running (drop_call h (running s)) s))
        as [Hj [Hi [Ht Hq]]].
      rewrite Hj, Hi, Ht, Hq. auto.
  - unfold step. simpl. destruct (timer s); simpl; auto.
Qed.

Lemma run_keeps_job (evs : list Event) (s : Session) :
  Forall (fun r => r = tracked s) (requests s) ->
  jobId (ui (run evs s)) = jobId (ui s)
  /\ isSubmitting (ui (run evs s)) = isSubmitting (ui s)
  /\ Forall (fun r => r = tracked s) (requests (run evs s)).
Proof.
  revert s. induction evs as [ | ev rest IH]; intros s Hreq; simpl.
  - auto.
  - destruct (step_keeps_job ev s) as [Hj [Hi [Ht Hq]]].
    specialize (Hq Hreq). rewrite <- Ht in Hq.
    destruct (IH (step ev s) Hq) as [Hj' [Hi' Hq']].
    rewrite Ht in Hq'. rewrite Hj', Hi', Hj, Hi. auto.
Qed.

(** X16.  Polling never changes which job is tracked.  In the session the
    effect starts for a job id, whatever events occur, every status request
    that is sent asks for that job id, and no event of the session writes
    the [jobId] or the [isSubmitting] state. *)
Theorem session_polls_only_its_job (st : State) (handle : positive) (s0 : Session)
    (evs : list Event) :
  useEffect_poll st handle = Some s0 ->
  jobId (ui (run evs s0)) = jobId st
  /\ isSubmitting (ui (run evs s0)) = isSubmitting st
  /\ Forall (fun r => Some r = jobId st) (requests (run evs s0)).
Proof.
  unfold useEffect_poll. destruct (jobId st) as [j | ] eqn:Hjob; [ | discriminate].
  destruct (negb (truthy (Some j))); [discriminate | ].
  intros Hstart. inversion Hstart as [Hs0]. clear Hstart.
  match goal with
  | |- context [run evs ?s] =>
      destruct (run_keeps_job evs s (Forall_nil _)) as [Hj [Hi Hq]]
  end.
  rewrite Hj, Hi. simpl. rewrite Hjob.
  split; [reflexivity | split; [reflexivity | ]].
  simpl in Hq. rewrite Forall_forall in *. intros r Hr. rewrite (Hq r Hr). reflexivity.
Qed.

Lemma session_polls_only_its_job_witness :
  requests (run [TimerFires 1%positive;
                 FetchSettles 1%positive (inr {| ok := true; http_status := 200 |});
                 JsonSettles 1%positive (inr (processing 10 4));
                 TimerFires 2%positive] first_session)
  = ["abc123"; "abc123"]
  /\ Forall (fun r => Some r = jobId tracking)
            (requests (run [TimerFires 1%positive;
                            FetchSettles 1%positive (inr {| ok := true; http_status := 200 |});
                            JsonSettles 1%positive (inr (processing 10 4));
                            TimerFires 2%positive] first_session)).
Proof.
  split; [reflexivity | ].
  apply (session_polls_only_its_job tracking 1%positive first_session
           [TimerFires 1%positive;
            FetchSettles 1%positive (inr {| ok := true; http_status := 200 |});
            JsonSettles 1%positive (inr (processing 10 4));
            TimerFires 2%positive] eq_refl).
Defined.

Lemma idle_step (ev : Event) (s : Session) :
  pending s = [] -> running s = [] ->
  pending (step ev s) = [] /\ running (step ev s) = []
  /\ ui (step ev s) = ui s /\ requests (step ev s) = requests s.
Proof.
  intros Hp Hr. destruct ev as [h | h r | h r | ].
  - unfold step, is_pending. rewrite Hp. simpl. auto.
  - unfold step. rewrite Hr. simpl. auto.
  - unfold step. rewrite Hr. simpl. auto.
  - unfold step. simpl. destruct (timer s); simpl; rewrite Hp; auto.
Qed.

Lemma idle_run (evs : list Event) (s : Session) :
  pending s = [] -> running s = [] ->
  pending (run evs s) = [] /\ running (run evs s) = []
  /\ ui (run evs s) = ui s /\ requests (run evs s) = requests s.
Proof.
  revert s. induction evs as [ | ev rest IH]; intros s Hp Hr; simpl.
  - auto.
  - destruct (idle_step ev s Hp Hr) as [Hp' [Hr' [Hu Hq]]].
    destruct (IH (step ev s) Hp' Hr') as [Hp'' [Hr'' [Hu' Hq']]].
    rewrite Hu', Hq', Hu, Hq. auto.
Qed.

(** X17.  A terminal status ends the polling for good.  In the session
    the effect starts, once a poll is answered with a payload whose status
    in lower case is ["completed"], ["error"] or ["failed"], nothing is
    scheduled or in flight any more, and whatever events follow, the
    session writes nothing to the state and sends no further request. *)
Theorem terminal_status_ends_polling (st : State) (handle : positive) (s0 : Session)
    (before : list Action) (h : positive) (payload : Payload.PdfJobStatus)
    (evs : list Event) :
  useEffect_poll st handle = Some s0 ->
  stage_of h (running (play before s0)) = Some AwaitJson ->
  option_map toLowerCase (Payload.status payload) = Some "completed"
  \/ option_map toLowerCase (Payload.status payload) = Some "error"
  \/ option_map toLowerCase (Payload.status payload) = Some "failed" ->
  pending (step (JsonSettles h (inr payload)) (play before s0)) = []
  /\ running (step (JsonSettles h (inr payload)) (play before s0)) = []
  /\ ui (run evs (step (JsonSettles h (inr payload)) (play before s0)))
     = ui (step (JsonSettles h (inr payload)) (play before s0))
  /\ requests (run evs (step (JsonSettles h (inr payload)) (play before s0)))
     = requests (play before s0).
Proof.
  intros Hstart Hstage Hterminal.
  pose proof (serial_play before s0 (serial_start st handle s0 Hstart)) as Hserial.
  set (s := play before s0) in *.
  assert (Hshape : pending s = [] /\ exists a, running s = [(h, a)]).
  { unfold serial in Hserial.
    destruct (pending s) as [ | [h0 d0] [ | p2 rest]];
      destruct (running s) as [ | [k a] [ | r2 more]]; simpl in *;
      try contradiction; try discriminate.
    split; [reflexivity | ].
    destruct (Pos.eqb k h) eqn:Hk; [ | discriminate].
    apply Pos.eqb_eq in Hk. subst k. eauto. }
  destruct Hshape as [Hpend [a Hrun]].
  assert (Hafter : pending (step (JsonSettles h (inr payload)) s) = []
                   /\ running (step (JsonSettles h (inr payload)) s) = []
                   /\ requests (step (JsonSettles h (inr payload)) s) = requests s).
  { unfold step. rewrite Hstage. unfold poll_payload. cbn [ignore set_running].
    destruct (ignore s).
    - simpl. rewrite Hpend, Hrun. simpl. rewrite Pos.eqb_refl. auto.
    - assert (Hbranch :
                opt_string_eqb (option_map toLowerCase (Payload.status payload)) "completed"
                = true
                \/ (opt_string_eqb (option_map toLowerCase (Payload.status payload))
                                   "completed" = false
                    /\ opt_string_eqb (option_map toLowerCase (Payload.status payload))
                                      "error"
                       || opt_string_eqb (option_map toLowerCase (Payload.status payload))
                                         "failed" = true)).
      { destruct Hterminal as [Hs | [Hs | Hs]]; rewrite Hs; auto. }
      destruct Hbranch as [Hc | [Hc Hf]]; rewrite Hc; try rewrite Hf;
        simpl; rewrite Hpend, Hrun; simpl; rewrite Pos.eqb_refl; auto. }
  destruct Hafter as [Hp' [Hr' Hq']].
  destruct (idle_run evs _ Hp' Hr') as [_ [_ [Hu Hq]]].
  rewrite Hu, Hq, Hq'. auto.
Qed.

Lemma terminal_status_ends_polling_witness :
  requests (run [TimerFires 2%positive; TimerFires 1%positive;
                 JsonSettles 1%positive (inr (processing 10 4))]
                (step (JsonSettles 1%positive
                         (inr (result_payload "completed" (Some "# Result") None)))
                      reading_first_poll))
  = ["abc123"].
Proof.
  destruct (terminal_status_ends_polling tracking 1%positive first_session
              [Own (TimerFires 1%positive);
               Own (FetchSettles 1%positive (inr {| ok := true; http_status := 200 |}))]
              1%positive (result_payload "completed" (Some "# Result") None)
              [TimerFires 2%positive; TimerFires 1%positive;
               JsonSettles 1%positive (inr (processing 10 4))]
              eq_refl eq_refl (or_introl eq_refl)) as [_ [_ [_ Hreq]]].
  exact Hreq.
Defined.

Lemma ratio_ge_one (p n : Z) :
  0 < n -> ((1 <= inject_Z p / inject_Z n)%Q <-> n <= p).
Proof.
  intros Hn. destruct n as [ | k | k]; try lia.
  unfold Qle, Qdiv, Qmult, Qinv, inject_Z. simpl. lia.
Qed.

Lemma progress_value (st : option Payload.PdfJobStatus) (n p : Z) :
  status_num_pages st = Some n -> status_pages_processed st = Some p ->
  0 < n -> 0 <= p ->
  (progress st == Qmin (inject_Z p / inject_Z n) 1)%Q.
Proof.
  intros Hn Hp Hpos Hnonneg. unfold progress. rewrite Hn, Hp. simpl falsy_number.
  assert (Hn0 : (n =? 0) = false) by (apply Z.eqb_neq; lia).
  rewrite Hn0. simpl orb.
  destruct (p =? 0) eqn:Hp0; [ | reflexivity].
  apply Z.eqb_eq in Hp0. subst p.
  assert (Hzero : (inject_Z 0 / inject_Z n == 0)%Q) by (unfold Qdiv; apply Qmult_0_l).
  rewrite Hzero. reflexivity.
Qed.

(** X18.  For a fixed positive page count, the progress fraction does not
    decrease when more pages are processed, and it is 1 exactly when the
    pages processed reach the page count. *)
Theorem progress_monotone (st st' : option Payload.PdfJobStatus) (n p p' : Z) :
  status_num_pages st = Some n -> status_pages_processed st = Some p ->
  status_num_pages st' = Some n -> status_pages_processed st' = Some p' ->
  0 < n -> 0 <= p -> p <= p' ->
  (progress st <= progress st')%Q
  /\ ((progress st == 1)%Q <-> n <= p).
Proof.
  intros Hn Hp Hn' Hp' Hpos Hnonneg Hle.
  rewrite (progress_value st n p Hn Hp Hpos Hnonneg).
  rewrite (progress_value st' n p' Hn' Hp' Hpos ltac:(lia)).
  split.
  - apply Q.min_le_compat_r. unfold Qdiv. apply Qmult_le_compat_r.
    + rewrite <- Zle_Qle. exact Hle.
    + apply Qinv_le_0_compat. change 0%Q with (inject_Z 0). rewrite <- Zle_Qle. lia.
  - rewrite Q.min_r_iff. apply ratio_ge_one. exact Hpos.
Qed.

Lemma progress_monotone_witness :
  (progress (Some (processing 10 4)) <= progress (Some (processing 10 12)))%Q
  /\ ((progress (Some (processing 10 4)) == 1)%Q <-> 10 <= 4).
Proof.
  apply (progress_monotone (Some (processing 10 4)) (Some (processing 10 12)) 10 4 12);
    try reflexivity; lia.
Defined.

Lemma replace_underscores_spec (t : string) :
  String.length (replace_underscores t) = String.length t
  /\ (forall i, String.get i (replace_underscores t) =
                match String.get i t with
                | Some c => Some (if Ascii.eqb c "_" then " "%char else c)
                | None => None
                end).
Proof.
  induction t as [ | c rest [IHlen IHget]]; simpl.
  - split; [reflexivity | intros i; reflexivity].
  - split; [f_equal; exact IHlen | ].
    intros [ | i]; simpl; [reflexivity | apply IHget].
Qed.

(** X20.  The state shown on the status card is ["idle"] when there is no
    status yet or the status has no [status] field; otherwise it is the
    [status] field, character by character, with a space in the place of
    every underscore and every other character as it is. *)
Theorem conversionState_shown (st : option Payload.PdfJobStatus) :
  (st = None -> conversionState st = "idle")
  /\ (forall p, st = Some p -> Payload.status p = None -> conversionState st = "idle")
  /\ (forall p t, st = Some p -> Payload.status p = Some t ->
        String.length (conversionState st) = String.length t
        /\ (forall i, String.get i (conversionState st) =
                      match String.get i t with
                      | Some c => Some (if Ascii.eqb c "_" then " "%char else c)
                      | None => None
                      end)).
Proof.
  split; [ | split].
  - intros Hst. subst st. reflexivity.
  - intros p Hst Hnone. subst st. unfold conversionState. rewrite Hnone. reflexivity.
  - intros p t Hst Hsome. subst st. unfold conversionState. rewrite Hsome. simpl.
    apply replace_underscores_spec.
Qed.

Lemma conversionState_shown_witness :
  conversionState (Some (failure_payload "split_pdf_in_progress" None))
  = "split pdf in progress"
  /\ conversionState None = "idle".
Proof.
  split.
  - reflexivity.
  - apply (proj1 (conversionState_shown None)). reflexivity.
Defined.

(** X21.  Every upload the page sends passes the checks of the proxy: when
    [handleSubmit] issues the request for a chosen file and the credentials
    are configured, [POST] forwards that file, byte for byte and with the
    credentials as headers, in its one outbound call. *)
Theorem page_uploads_reach_upstream (files : list File) (st st' : State) (file : File)
    (h : Route.Host) (log : list Route.Outbound) :
  handleSubmit_begin files st = (st', Some file) ->
  truthy (Route.APP_ID h) = true -> truthy (Route.APP_KEY h) = true ->
  snd (Route.POST h (submitted file) log)
  = (log ++ [upload_call h (file_bytes file)])%list.
Proof.
  intros Hbegin Hid Hkey.
  assert (Htype : file_type file = "application/pdf").
  { unfold handleSubmit_begin in Hbegin. destruct files as [ | f rest]; [discriminate | ].
    destruct (String.eqb (file_type f) "application/pdf") eqn:Hf; simpl in Hbegin;
      [ | discriminate].
    inversion Hbegin; subst. apply String.eqb_eq. exact Hf. }
  apply (POST_forwards h (submitted file)
           [("file", Route.EntryFile (file_type file) (file_bytes file))]
           (file_type file) (file_bytes file) log); auto.
  rewrite Htype. reflexivity.
Qed.

Lemma page_uploads_reach_upstream_witness :
  snd (Route.POST (Reference.host (Some "id") (Some "key") (Reference.answers 200 "{}"))
                  (submitted pdf_file) [])
  = [upload_call (Reference.host (Some "id") (Some "key") (Reference.answers 200 "{}"))
                 [Byte.x25; Byte.x50]].
Proof.
  apply (page_uploads_reach_upstream [pdf_file] idle
           (fst (handleSubmit_begin [pdf_file] idle)) pdf_file
           (Reference.host (Some "id") (Some "key") (Reference.answers 200 "{}")) []);
    reflexivity.
Defined.

End PageBeyond.
